(** * Inventory reservation and allocation engine

    A shallow embedding of the stock ledger of the warehouse back end
    ([inventory/models.py], [inventory/services.py], [inventory/signals.py])
    and the statements its specification makes about it.

    Conventions of the embedding.
    - Django model classes are records; a table is the list of its rows, in
      the order the default queryset of the model returns them
      ([Meta.ordering]); a queryset [filter] is [List.filter] on that list.
    - Primary keys (UUIDs) and foreign keys are integers; a foreign key is
      resolved by a lookup in the table it points to, which raises
      [DoesNotExist] when the row is absent.
    - [IntegerField] values are unbounded integers ([Z]), as Python's are;
      [DecimalField] values are exact: money in hundredths ([Z]), volumes as
      rationals ([Q]).
    - [timezone.now()] and fresh UUIDs are arguments of the operations that
      read them.
    - Code that can raise runs in the monad [M]: a state transformer on the
      database that either returns a value or raises; [atomic] is
      [transaction.atomic].
    - Names are resolved as Python resolves them. [services.py] imports
      [Product] from [inventory/models.py], which binds no such name, and
      reads [models.Sum] without binding [models]: the first statement
      raises [ImportError], the second [NameError], and the service
      functions are embedded with these steps in place. The lines behind
      them are transcribed as they stand, with [Product] read as
      [products.Product], whose rows have no attribute
      [is_active_computed] or [allow_backorders]. *)

From Stdlib Require Import ZArith List Lia Bool String QArith Qminmax.
Import ListNotations.
Local Open Scope Z_scope.

(** ** Data model ([inventory/models.py], [products/models.py]) *)

(** [products.Product], the columns the ledger reads or writes. *)
Module Product.
Record t : Type := mk {
  id : Z;
  is_active : bool;
  allow_backorder : bool;
  stock_quantity : Z
}.

Definition set_stock_quantity (p : t) (total : Z) : t :=
  mk (id p) (is_active p) (allow_backorder p) total.
End Product.

Module Inventory.
(** [STATUS_CHOICES] *)
Inductive status_t : Type :=
| active | quarantine | damaged | expired | reserved | in_transit.

Definition status_eqb (a b : status_t) : bool :=
  match a, b with
  | active, active | quarantine, quarantine | damaged, damaged
  | expired, expired | reserved, reserved | in_transit, in_transit => true
  | _, _ => false
  end.

Record t : Type := mk {
  id : Z;
  product : Z;
  warehouse : Z;
  quantity : Z;
  reserved_quantity : Z;
  available_quantity : Z;
  expiry_date : option Z;
  unit_cost : Z;
  total_value : Z;
  status : status_t;
  created_at : Z
}.

Definition set_quantity (i : t) (q : Z) : t :=
  mk (id i) (product i) (warehouse i) q (reserved_quantity i)
     (available_quantity i) (expiry_date i) (unit_cost i) (total_value i)
     (status i) (created_at i).

Definition set_reserved_quantity (i : t) (r : Z) : t :=
  mk (id i) (product i) (warehouse i) (quantity i) r
     (available_quantity i) (expiry_date i) (unit_cost i) (total_value i)
     (status i) (created_at i).

Definition set_status (i : t) (s : status_t) : t :=
  mk (id i) (product i) (warehouse i) (quantity i) (reserved_quantity i)
     (available_quantity i) (expiry_date i) (unit_cost i) (total_value i)
     s (created_at i).

(** The two assignments at the head of [Inventory.save]. *)
Definition computed_fields (i : t) : t :=
  mk (id i) (product i) (warehouse i) (quantity i) (reserved_quantity i)
     (quantity i - reserved_quantity i) (expiry_date i) (unit_cost i)
     (quantity i * unit_cost i) (status i) (created_at i).
End Inventory.

Module StockReservation.
(** [RESERVATION_STATUS] *)
Inductive status_t : Type :=
| reserved | partially_reserved | allocated | released | cancelled.

Record t : Type := mk {
  id : Z;
  product : Z;
  order : option Z;
  customer : option Z;
  quantity : Z;
  backorder_quantity : Z;
  status : status_t;
  expires_at : option Z;
  allocated_at : option Z;
  released_at : option Z
}.

(** [status__in=['reserved', 'partially_reserved']] *)
Definition status_in_reserved (s : status_t) : bool :=
  match s with
  | reserved | partially_reserved => true
  | _ => false
  end.

Definition set_backorder_quantity (r : t) (b : Z) : t :=
  mk (id r) (product r) (order r) (customer r) (quantity r) b (status r)
     (expires_at r) (allocated_at r) (released_at r).

Definition mark_released (r : t) (now : Z) : t :=
  mk (id r) (product r) (order r) (customer r) (quantity r)
     (backorder_quantity r) released (expires_at r) (allocated_at r)
     (Some now).

Definition mark_allocated (r : t) (now : Z) : t :=
  mk (id r) (product r) (order r) (customer r) (quantity r)
     (backorder_quantity r) allocated (expires_at r) (Some now)
     (released_at r).

(** [is_expired]: a reservation without [expires_at] never expires. *)
Definition is_expired (r : t) (now : Z) : bool :=
  match expires_at r with
  | Some e => now >? e
  | None => false
  end.

Definition can_allocate (r : t) (now : Z) : bool :=
  status_in_reserved (status r) && negb (is_expired r now).
End StockReservation.

Module ReservationAllocation.
Record t : Type := mk {
  reservation : Z;
  inventory : Z;
  quantity : Z
}.
End ReservationAllocation.

Module AdjustmentItem.
(** [ADJUSTMENT_REASONS] *)
Inductive reason_t : Type :=
| damaged | expired | counting_error | theft | other.

Record t : Type := mk {
  adjustment : Z;
  inventory : Z;
  quantity_change : Z;
  adjustment_reason : reason_t
}.
End AdjustmentItem.

Module StockAdjustment.
(** [ADJUSTMENT_STATUS] *)
Inductive status_t : Type :=
| pending | approved | rejected | completed.

Record t : Type := mk {
  id : Z;
  status : status_t
}.
End StockAdjustment.

(** ** The database *)

Record DB : Type := mkDB {
  products : list Product.t;
  inventories : list Inventory.t;
  reservations : list StockReservation.t;
  allocations : list ReservationAllocation.t;
  adjustments : list StockAdjustment.t;
  adjustment_items : list AdjustmentItem.t
}.

Definition with_products (db : DB) (l : list Product.t) : DB :=
  mkDB l (inventories db) (reservations db) (allocations db)
       (adjustments db) (adjustment_items db).

Definition with_inventories (db : DB) (l : list Inventory.t) : DB :=
  mkDB (products db) l (reservations db) (allocations db)
       (adjustments db) (adjustment_items db).

Definition with_reservations (db : DB) (l : list StockReservation.t) : DB :=
  mkDB (products db) (inventories db) l (allocations db)
       (adjustments db) (adjustment_items db).

Definition with_allocations (db : DB) (l : list ReservationAllocation.t) : DB :=
  mkDB (products db) (inventories db) (reservations db) l
       (adjustments db) (adjustment_items db).

Definition with_adjustments (db : DB) (l : list StockAdjustment.t) : DB :=
  mkDB (products db) (inventories db) (reservations db) (allocations db)
       l (adjustment_items db).

(** [Model.save()] on a row with a primary key: UPDATE the row that has the
    key, INSERT at the end when there is none. *)
Fixpoint upsert {A : Type} (key : A -> Z) (x : A) (l : list A) : list A :=
  match l with
  | [] => [x]
  | y :: l' => if key y =? key x then x :: l' else y :: upsert key x l'
  end.

(** [objects.get(pk=k)] *)
Definition get_by {A : Type} (key : A -> Z) (k : Z) (l : list A) : option A :=
  find (fun y => key y =? k) l.

(** [aggregate(total=Sum(field))['total'] or 0] *)
Definition Sum {A : Type} (field : A -> Z) (l : list A) : Z :=
  fold_right (fun y acc => field y + acc) 0 l.

(** ** Exceptions, results and the monad of database code *)

Inductive exn : Type :=
| DoesNotExist
| DatabaseError
| ImportError
| NameError
| AttributeError.

Inductive outcome (A : Type) : Type :=
| Returned (a : A)
| Raised (e : exn).
Arguments Returned {A} a.
Arguments Raised {A} e.

Definition M (A : Type) : Type := DB -> DB * outcome A.

Definition ret {A : Type} (a : A) : M A := fun db => (db, Returned a).

Definition raise {A : Type} (e : exn) : M A := fun db => (db, Raised e).

Definition bind {A B : Type} (c : M A) (k : A -> M B) : M B :=
  fun db =>
    match c db with
    | (db', Returned a) => k a db'
    | (db', Raised e) => (db', Raised e)
    end.

Definition read : M DB := fun db => (db, Returned db).

Definition write (f : DB -> DB) : M unit := fun db => (f db, Returned tt).

Declare Scope db_scope.
Delimit Scope db_scope with db.
Notation "x <- c ;; k" := (bind c (fun x => k))
  (at level 61, c at next level, right associativity) : db_scope.
Notation "c ;;; k" := (bind c (fun _ => k))
  (at level 61, right associativity) : db_scope.
Local Open Scope db_scope.

(** [transaction.atomic]: the block's writes are kept when it is left by a
    [return], undone when it is left by an exception. *)
Definition atomic {A : Type} (c : M A) : M A :=
  fun db =>
    match c db with
    | (db', Returned a) => (db', Returned a)
    | (_, Raised e) => (db, Raised e)
    end.

(** [try: c  except Exception as e: h e] *)
Definition try_except {A : Type} (c : M A) (h : exn -> M A) : M A :=
  fun db =>
    match c db with
    | (db', Returned a) => (db', Returned a)
    | (db', Raised e) => h e db'
    end.

(** [for x in l: body x] *)
Fixpoint for_each {A : Type} (l : list A) (body : A -> M unit) : M unit :=
  match l with
  | [] => ret tt
  | x :: l' => body x ;;; for_each l' body
  end.

(** Following a foreign key. *)
Definition fetch {A : Type} (o : option A) : M A :=
  match o with
  | Some a => ret a
  | None => raise DoesNotExist
  end.

Definition get_inventory (k : Z) : M Inventory.t :=
  db <- read ;; fetch (get_by Inventory.id k (inventories db)).

Definition get_product (k : Z) : M Product.t :=
  db <- read ;; fetch (get_by Product.id k (products db)).

(** ** [Inventory] methods *)

(** [status='active'] rows of one product. *)
Definition active_of_product (p : Z) (i : Inventory.t) : bool :=
  (Inventory.product i =? p) && Inventory.status_eqb (Inventory.status i) Inventory.active.

(** [update_product_stock]. The method also sets [product.is_in_stock]
    ([total_quantity > reserved_quantity]); the product model has no such
    column, so [product.save()] stores [stock_quantity] only. *)
Definition update_product_stock (self : Inventory.t) : M unit :=
  db <- read ;;
  let rows := filter (active_of_product (Inventory.product self)) (inventories db) in
  let total_quantity := Sum Inventory.quantity rows in
  product <- get_product (Inventory.product self) ;;
  write (fun db =>
    with_products db
      (upsert Product.id (Product.set_stock_quantity product total_quantity)
         (products db))).

(** [Inventory.save]; the value is [self] after the call. *)
Definition Inventory_save (self : Inventory.t) : M Inventory.t :=
  let self := Inventory.computed_fields self in
  write (fun db => with_inventories db (upsert Inventory.id self (inventories db))) ;;;
  update_product_stock self ;;;
  ret self.

(** The three ledger methods return [self] after the call and the method's
    result. *)
Definition Inventory_reserve_stock (self : Inventory.t) (quantity : Z)
  : M (Inventory.t * bool) :=
  if Inventory.available_quantity self >=? quantity then
    self <- Inventory_save
              (Inventory.set_reserved_quantity self
                 (Inventory.reserved_quantity self + quantity)) ;;
    ret (self, true)
  else ret (self, false).

Definition Inventory_release_stock (self : Inventory.t) (quantity : Z)
  : M (Inventory.t * bool) :=
  if Inventory.reserved_quantity self >=? quantity then
    self <- Inventory_save
              (Inventory.set_reserved_quantity self
                 (Inventory.reserved_quantity self - quantity)) ;;
    ret (self, true)
  else ret (self, false).

(** In [allocate_stock] the capacity update is guarded by
    [self.product.volume], an attribute the product model does not have:
    [product_volume] is 0 and the guarded block never runs. *)
Definition Inventory_allocate_stock (self : Inventory.t) (quantity : Z)
  : M (Inventory.t * bool) :=
  if (Inventory.reserved_quantity self >=? quantity)
     && (Inventory.quantity self >=? quantity) then
    self <- Inventory_save
              (Inventory.set_reserved_quantity
                 (Inventory.set_quantity self (Inventory.quantity self - quantity))
                 (Inventory.reserved_quantity self - quantity)) ;;
    ret (self, true)
  else ret (self, false).

(** ** [StockAdjustment.apply_adjustment] *)

(** The body of the loop over [self.adjustment_items.all()]. *)
Definition adjust_line (item : AdjustmentItem.t) : M unit :=
  inventory <- get_inventory (AdjustmentItem.inventory item) ;;
  let inventory :=
    Inventory.set_quantity inventory
      (Inventory.quantity inventory + AdjustmentItem.quantity_change item) in
  let inventory :=
    if Inventory.quantity inventory <? 0
    then Inventory.set_quantity inventory 0
    else inventory in
  let inventory :=
    match AdjustmentItem.adjustment_reason item with
    | AdjustmentItem.damaged => Inventory.set_status inventory Inventory.damaged
    | AdjustmentItem.expired => Inventory.set_status inventory Inventory.expired
    | _ => inventory
    end in
  Inventory_save inventory ;;;
  ret tt.

Definition items_of (adjustment : Z) (db : DB) : list AdjustmentItem.t :=
  filter (fun it => AdjustmentItem.adjustment it =? adjustment) (adjustment_items db).

Definition StockAdjustment_apply_adjustment (self : StockAdjustment.t) : M bool :=
  match StockAdjustment.status self with
  | StockAdjustment.approved =>
      db <- read ;;
      for_each (items_of (StockAdjustment.id self) db) adjust_line ;;;
      write (fun db =>
        with_adjustments db
          (upsert StockAdjustment.id
             (StockAdjustment.mk (StockAdjustment.id self) StockAdjustment.completed)
             (adjustments db))) ;;;
      ret true
  | _ => ret false
  end.

(** ** Names of [inventory/models.py] and [inventory/services.py] *)

(** The names [inventory/models.py] binds at module level: its imports,
    [logger] and its classes. *)
Definition inventory_models : list string :=
  ["models"; "MinValueValidator"; "MaxValueValidator"; "timezone"; "_"; "uuid";
   "logging"; "logger";
   "WarehouseZone"; "WarehouseAisle"; "WarehouseShelf"; "Warehouse";
   "StorageLocation"; "Inventory"; "StockReservation"; "ReservationAllocation";
   "StockTransfer"; "TransferItem"; "StockAdjustment"; "AdjustmentItem";
   "WarehouseTransaction"; "WarehouseTask"; "TaskItem"; "PutawayTask";
   "PickingTask"; "WarehouseEquipment"; "WarehouseStaffSchedule";
   "WarehousePerformanceMetrics"; "WarehouseSafetyCheck"]%string.

(** [from .models import n1, ..., nk] in a function of [services.py]: it
    binds the names when the module has them all and raises [ImportError]
    otherwise. [release_stock] imports [StockReservation] only; that step
    is the identity and is not written out. *)
Definition from_models_import (names : list string) : M unit :=
  if forallb (fun n => existsb (String.eqb n) inventory_models) names
  then ret tt else raise ImportError.

(** The names [inventory/services.py] binds at module level. *)
Definition services_globals : list string :=
  ["transaction"; "ValidationError"; "timezone"; "Decimal"; "logging"; "logger";
   "InventoryService"; "WarehouseService"]%string.

(** Reading a name that is neither a local of the function nor a builtin:
    a global of [services.py], or [NameError]. *)
Definition global_name (name : string) : M unit :=
  if existsb (String.eqb name) services_globals then ret tt else raise NameError.

(** [product.<name>] for a boolean attribute of a [products.Product] row: a
    declared column, or [AttributeError]. *)
Definition Product_getattr (product : Product.t) (name : string) : M bool :=
  if String.eqb name "is_active" then ret (Product.is_active product)
  else if String.eqb name "allow_backorder" then ret (Product.allow_backorder product)
  else raise AttributeError.

(** ** [InventoryService] ([inventory/services.py]) *)

(** The messages of the service results, by the place that returns them. *)
Inductive message : Type :=
| msg_product_missing        (* check_product_availability, Product.DoesNotExist *)
| msg_product_inactive       (* check_product_availability, not is_active_computed *)
| msg_insufficient_stock     (* check_product_availability, no lot and no backorder *)
| msg_backorder_allowed      (* check_product_availability, no lot but backorder *)
| msg_stock_sufficient       (* check_product_availability, success *)
| msg_reserved               (* reserve_stock, success *)
| msg_not_found_or_released  (* release_stock, StockReservation.DoesNotExist *)
| msg_released               (* release_stock, success *)
| msg_not_found              (* allocate_stock, StockReservation.DoesNotExist *)
| msg_allocation_short       (* allocate_stock, total_allocated too small *)
| msg_allocation_failed      (* allocate_stock, a lot refused *)
| msg_allocated.             (* allocate_stock, success *)

Module InventoryService.

(** The queryset of [check_product_availability]. *)
Definition candidate_lots (db : DB) (product quantity : Z)
           (warehouse_id : option Z) : list Inventory.t :=
  let inventory_query :=
    filter (fun i => active_of_product product i
                     && (Inventory.available_quantity i >=? quantity))
           (inventories db) in
  match warehouse_id with
  | Some w => filter (fun i => Inventory.warehouse i =? w) inventory_query
  | None => inventory_query
  end.

(** The function opens with [from .models import Inventory, Product]
    (line 27). *)
Definition check_product_availability (product_id quantity : Z)
           (warehouse_id : option Z)
  : M (bool * message * list Inventory.t) :=
  from_models_import ["Inventory"; "Product"]%string ;;;
  db <- read ;;
  match find (fun p => (Product.id p =? product_id) && Product.is_active p)
             (products db) with
  | None => ret (false, msg_product_missing, [])
  | Some product =>
      is_active_computed <- Product_getattr product "is_active_computed" ;;
      if negb is_active_computed then
        ret (false, msg_product_inactive, [])
      else
        match candidate_lots db (Product.id product) quantity warehouse_id with
        | [] =>
            allow_backorders <- Product_getattr product "allow_backorders" ;;
            if negb allow_backorders
            then ret (false, msg_insufficient_stock, [])
            else ret (true, msg_backorder_allowed, [])
        | available_inventories => ret (true, msg_stock_sufficient, available_inventories)
        end
  end.

(** The loop of [reserve_stock] over the candidate lots; the value is
    [(remaining_quantity, allocated_inventories)] after the loop. *)
Fixpoint reserve_loop (inventories : list Inventory.t) (remaining_quantity : Z)
         (allocated_inventories : list (Z * Z)) : M (Z * list (Z * Z)) :=
  match inventories with
  | [] => ret (remaining_quantity, allocated_inventories)
  | inventory :: rest =>
      if remaining_quantity <=? 0 then
        ret (remaining_quantity, allocated_inventories)
      else
        let allocate_qty :=
          Z.min remaining_quantity (Inventory.available_quantity inventory) in
        r <- Inventory_reserve_stock inventory allocate_qty ;;
        if snd r then
          reserve_loop rest (remaining_quantity - allocate_qty)
            (allocated_inventories ++ [(Inventory.id inventory, allocate_qty)])
        else
          reserve_loop rest remaining_quantity allocated_inventories
  end.

(** [reservation.allocations.create(...)] for each recorded allocation. *)
Definition create_allocations (reservation : Z) (allocated : list (Z * Z)) : M unit :=
  for_each allocated (fun allocation =>
    write (fun db =>
      with_allocations db
        (allocations db ++
         [ReservationAllocation.mk reservation (fst allocation) (snd allocation)]))).

(** [new_id] is the UUID the new reservation row gets. *)
Definition reserve_stock (new_id : Z) (product_id quantity : Z)
           (order_id customer_id warehouse_id : option Z)
  : M (bool * message * option StockReservation.t) :=
  atomic (
    from_models_import ["Inventory"; "StockReservation"]%string ;;;
    a <- check_product_availability product_id quantity warehouse_id ;;
    let '(is_available, message, inventories) := a in
    if negb is_available then ret (false, message, None)
    else
      let reservation :=
        StockReservation.mk new_id product_id order_id customer_id quantity 0
          StockReservation.reserved None None None in
      l <- reserve_loop inventories quantity [] ;;
      let '(remaining_quantity, allocated_inventories) := l in
      let reservation :=
        if remaining_quantity >? 0
        then StockReservation.set_backorder_quantity reservation remaining_quantity
        else reservation in
      write (fun db =>
        with_reservations db
          (upsert StockReservation.id reservation (reservations db))) ;;;
      create_allocations (StockReservation.id reservation) allocated_inventories ;;;
      ret (true, msg_reserved, Some reservation)).

(** [StockReservation.objects.get(id=..., status__in=[...])] *)
Definition get_reserved (reservation_id : Z) (db : DB) : option StockReservation.t :=
  find (fun r => (StockReservation.id r =? reservation_id)
                 && StockReservation.status_in_reserved (StockReservation.status r))
       (reservations db).

(** [reservation.allocations.all()] *)
Definition allocations_of (reservation : Z) (db : DB) : list ReservationAllocation.t :=
  filter (fun a => ReservationAllocation.reservation a =? reservation) (allocations db).

(** The body of the loop of [release_stock]; the result of the lot's
    [release_stock] is dropped. *)
Definition release_line (allocation : ReservationAllocation.t) : M unit :=
  inventory <- get_inventory (ReservationAllocation.inventory allocation) ;;
  Inventory_release_stock inventory (ReservationAllocation.quantity allocation) ;;;
  ret tt.

Definition release_stock (now : Z) (reservation_id : Z) : M (bool * message) :=
  atomic (
    db <- read ;;
    match get_reserved reservation_id db with
    | None => ret (false, msg_not_found_or_released)
    | Some reservation =>
        for_each (allocations_of (StockReservation.id reservation) db) release_line ;;;
        write (fun db =>
          with_reservations db
            (upsert StockReservation.id
               (StockReservation.mark_released reservation now) (reservations db))) ;;;
        ret (true, msg_released)
    end).

(** The loop of [allocate_stock]: [Some m] when the loop was left by
    [return False, m], [None] when it ran to its end. *)
Fixpoint allocate_loop (lines : list ReservationAllocation.t) : M (option message) :=
  match lines with
  | [] => ret None
  | allocation :: rest =>
      inventory <- get_inventory (ReservationAllocation.inventory allocation) ;;
      r <- Inventory_allocate_stock inventory (ReservationAllocation.quantity allocation) ;;
      if negb (snd r) then ret (Some msg_allocation_failed)
      else allocate_loop rest
  end.

(** [total=models.Sum('quantity')] (line 186) reads the global [models]. *)
Definition allocate_stock (now : Z) (reservation_id : Z) : M (bool * message) :=
  atomic (
    from_models_import ["StockReservation"]%string ;;;
    db <- read ;;
    match get_reserved reservation_id db with
    | None => ret (false, msg_not_found)
    | Some reservation =>
        let lines := allocations_of (StockReservation.id reservation) db in
        global_name "models" ;;;
        let total_allocated := Sum ReservationAllocation.quantity lines in
        if total_allocated <? StockReservation.quantity reservation
                              - StockReservation.backorder_quantity reservation
        then ret (false, msg_allocation_short)
        else
          failed <- allocate_loop lines ;;
          match failed with
          | Some m => ret (false, m)
          | None =>
              write (fun db =>
                with_reservations db
                  (upsert StockReservation.id
                     (StockReservation.mark_allocated reservation now)
                     (reservations db))) ;;;
              ret (true, msg_allocated)
          end
    end).

End InventoryService.

(** ** The expiry sweeper ([inventory/signals.py]) *)

Inductive log_record : Type :=
| log_info (count : nat)     (* logger.info: count expired reservations cleaned *)
| log_error (e : exn).       (* logger.error: the cleanup failed *)

(** [status__in=['reserved', 'partially_reserved'], expires_at__lt=now] *)
Definition expired_reserved (now : Z) (r : StockReservation.t) : bool :=
  StockReservation.status_in_reserved (StockReservation.status r)
  && match StockReservation.expires_at r with
     | Some e => e <? now
     | None => false
     end.

Section Sweeper.
(** The release operation the handler calls, [InventoryService.release_stock]
    in the source. *)
Variable release_stock : Z -> M (bool * message).

Definition cleanup_with (sender_name : string) (now : Z) : M (list log_record) :=
  if negb (String.eqb sender_name "inventory") then ret []
  else
    try_except
      (db <- read ;;
       let expired_reservations := filter (expired_reserved now) (reservations db) in
       let count := List.length expired_reservations in
       if (0 <? count)%nat then
         atomic (
           for_each expired_reservations (fun reservation =>
             release_stock (StockReservation.id reservation) ;;; ret tt) ;;;
           ret [log_info count])
       else ret [])
      (fun e => ret [log_error e]).
End Sweeper.

Definition cleanup_expired_reservations (sender_name : string) (now : Z)
  : M (list log_record) :=
  cleanup_with (InventoryService.release_stock now) sender_name now.

(** ** [Warehouse.update_capacity] *)

Module Warehouse.
Local Open Scope Q_scope.

Record t : Type := mk {
  id : Z;
  total_capacity : Q;
  used_capacity : Q
}.

(** [x < 0] on decimals. *)
Definition negative (x : Q) : bool := negb (Qle_bool 0 x).

(** The value is [self] as [self.save()] writes it. *)
Definition update_capacity (self : t) (volume_change : Q) (action : string) : t :=
  let used :=
    if String.eqb action "increase" then used_capacity self + volume_change
    else if String.eqb action "decrease" then used_capacity self - volume_change
    else used_capacity self in
  let used := if negative used then 0 else used in
  mk (id self) (total_capacity self) used.
End Warehouse.


(** ** [StorageLocation] ([inventory/models.py]) *)

Module StorageLocation.
Local Open Scope Q_scope.

Record t : Type := mk {
  id : Z;
  warehouse : Z;
  max_volume : Q;
  max_weight : Q;
  current_volume : Q;
  current_weight : Q;
  is_active : bool;
  is_full : bool
}.

(** The value is the object [self] after the call. [self.save()] then
    stores it; the stored copy of a decimal field is rounded to the two
    places of its column, which the object is not. *)
Definition update_occupancy (self : t) (volume weight : Q) (action : string) : t :=
  let current :=
    if String.eqb action "increase"
    then (current_volume self + volume, current_weight self + weight)
    else if String.eqb action "decrease"
    then (current_volume self - volume, current_weight self - weight)
    else (current_volume self, current_weight self) in
  mk (id self) (warehouse self) (max_volume self) (max_weight self)
     (fst current) (snd current) (is_active self)
     (Qle_bool (max_volume self) (fst current)
      || Qle_bool (max_weight self) (snd current)).

Definition available_volume (self : t) : Q := max_volume self - current_volume self.

Definition available_weight (self : t) : Q := max_weight self - current_weight self.
End StorageLocation.

(** ** [Inventory.check_expiry] *)

(** [today] is [timezone.now().date()]. *)
Definition Inventory_check_expiry (today : Z) (self : Inventory.t)
  : M (Inventory.t * bool) :=
  match Inventory.expiry_date self with
  | Some expiry_date =>
      if today >? expiry_date then
        self <- Inventory_save (Inventory.set_status self Inventory.expired) ;;
        ret (self, true)
      else ret (self, false)
  | None => ret (self, false)
  end.

(** ** [TransferItem.allocate_from_inventory] *)

Module StockTransfer.
Record t : Type := mk {
  id : Z;
  from_warehouse : Z;
  to_warehouse : Z
}.
End StockTransfer.

Module TransferItem.
(** [ITEM_STATUS] *)
Inductive status_t : Type :=
| pending | picked | shipped | received.

(** [transfer] is the row the foreign key points to. *)
Record t : Type := mk {
  id : Z;
  transfer : StockTransfer.t;
  product : Z;
  inventory : option Z;
  quantity : Z;
  unit_cost : Z;
  total_cost : Z;
  status : status_t
}.

Definition set_inventory (i : t) (k : option Z) : t :=
  mk (id i) (transfer i) (product i) k (quantity i) (unit_cost i) (total_cost i)
     (status i).

Definition set_status (i : t) (s : status_t) : t :=
  mk (id i) (transfer i) (product i) (inventory i) (quantity i) (unit_cost i)
     (total_cost i) s.

(** [TransferItem.save]: the value is the row it writes. *)
Definition save (i : t) : t :=
  mk (id i) (transfer i) (product i) (inventory i) (quantity i) (unit_cost i)
     (quantity i * unit_cost i) (status i).
End TransferItem.

(** The queryset of [allocate_from_inventory]: the active lots of the
    product in the source warehouse. *)
Definition source_lots (self : TransferItem.t) (db : DB) : list Inventory.t :=
  filter (fun i => active_of_product (TransferItem.product self) i
                   && (Inventory.warehouse i
                       =? StockTransfer.from_warehouse (TransferItem.transfer self)))
         (inventories db).

(** The value is [self] after the call and the method's result. *)
Definition TransferItem_allocate_from_inventory (self : TransferItem.t)
  : M (TransferItem.t * bool) :=
  match TransferItem.inventory self with
  | None =>
      db <- read ;;
      match source_lots self db with
      | inventory :: _ =>
          if Inventory.available_quantity inventory >=? TransferItem.quantity self then
            let self := TransferItem.set_inventory self (Some (Inventory.id inventory)) in
            r <- Inventory_reserve_stock inventory (TransferItem.quantity self) ;;
            if snd r then
              ret (TransferItem.save (TransferItem.set_status self TransferItem.picked),
                   true)
            else ret (self, false)
          else ret (self, false)
      | [] => ret (self, false)
      end
  | Some _ => ret (self, false)
  end.

(** ** [PickingTask.find_best_inventory] *)

(** [order_by('expiry_date', 'created_at')]: whether a row without expiry
    date sorts before or after the others is the database's choice,
    [nulls_first]. [before a b] says that [a] sorts strictly before [b]. *)
Definition expiry_before (nulls_first : bool) (a b : option Z) : bool :=
  match a, b with
  | Some x, Some y => x <? y
  | None, Some _ => nulls_first
  | Some _, None => negb nulls_first
  | None, None => false
  end.

Definition expiry_same (a b : option Z) : bool :=
  match a, b with
  | Some x, Some y => x =? y
  | None, None => true
  | _, _ => false
  end.

Definition before (nulls_first : bool) (a b : Inventory.t) : bool :=
  expiry_before nulls_first (Inventory.expiry_date a) (Inventory.expiry_date b)
  || (expiry_same (Inventory.expiry_date a) (Inventory.expiry_date b)
      && (Inventory.created_at a <? Inventory.created_at b)).

(** [.first()] of an ordered queryset: a row that no other row sorts
    before; among rows that sort together, the one the table lists first. *)
Fixpoint first_by (lt : Inventory.t -> Inventory.t -> bool) (l : list Inventory.t)
  : option Inventory.t :=
  match l with
  | [] => None
  | x :: l' =>
      match first_by lt l' with
      | Some y => if lt y x then Some y else Some x
      | None => Some x
      end
  end.

(** The queryset of [find_best_inventory] before its [order_by]. *)
Definition pickable_lots (db : DB) (warehouse product quantity : Z)
  : list Inventory.t :=
  filter (fun i => (Inventory.product i =? product)
                   && (Inventory.warehouse i =? warehouse)
                   && Inventory.status_eqb (Inventory.status i) Inventory.active
                   && (Inventory.available_quantity i >=? quantity))
         (inventories db).

Definition find_best_inventory (nulls_first : bool) (db : DB)
           (warehouse product quantity : Z) : option Inventory.t :=
  first_by (before nulls_first) (pickable_lots db warehouse product quantity).

(** ** [OrderItem.ship_quantity] ([orders/models.py]) *)

Module OrderItem.
Record t : Type := mk {
  id : Z;
  product : Z;
  quantity : Z;
  unit_price : Z;
  total_price : Z;
  allocated_inventory : option Z;
  quantity_shipped : Z;
  quantity_refunded : Z
}.

Definition set_quantity_shipped (i : t) (s : Z) : t :=
  mk (id i) (product i) (quantity i) (unit_price i) (total_price i)
     (allocated_inventory i) s (quantity_refunded i).

(** [OrderItem.save]: the value is the row it writes. *)
Definition save (i : t) : t :=
  mk (id i) (product i) (quantity i) (unit_price i) (unit_price i * quantity i)
     (allocated_inventory i) (quantity_shipped i) (quantity_refunded i).

Definition is_fully_shipped (i : t) : bool := quantity_shipped i >=? quantity i.
End OrderItem.

(** The value is [self] after the call and the method's result; the answer
    of the lot's [allocate_stock] is dropped. *)
Definition OrderItem_ship_quantity (self : OrderItem.t) (quantity : Z)
  : M (OrderItem.t * bool) :=
  if quantity <=? OrderItem.quantity self - OrderItem.quantity_shipped self then
    let self :=
      OrderItem.set_quantity_shipped self (OrderItem.quantity_shipped self + quantity) in
    match OrderItem.allocated_inventory self with
    | Some k =>
        inventory <- get_inventory k ;;
        Inventory_allocate_stock inventory quantity ;;;
        ret tt
    | None => ret tt
    end ;;;
    ret (OrderItem.save self, true)
  else ret (self, false).

(** ** [WarehouseShelf] *)

From Stdlib Require DecimalString.

Module WarehouseShelf.
Record t : Type := mk {
  shelf_number : string;
  levels : Z;
  bays : Z;
  max_items_per_bay : Z;
  current_items : Z
}.

Definition total_capacity (self : t) : Z :=
  levels self * bays self * max_items_per_bay self.

Definition available_capacity (self : t) : Z :=
  total_capacity self - current_items self.

(** [range(1, n + 1)] *)
Definition range1 (n : Z) : list Z := map Z.of_nat (seq 1 (Z.to_nat n)).

(** [f'{n:02d}']: the decimal digits of [n], with a leading zero when there
    is only one character. *)
Definition format_02d (n : Z) : string :=
  let digits := DecimalString.NilZero.string_of_int (Z.to_int n) in
  if (String.length digits <? 2)%nat then ("0" ++ digits)%string else digits.

(** The dictionaries of [get_bin_locations]. *)
Record bin : Type := mk_bin {
  code : string;
  level : Z;
  bay : Z
}.

Definition get_bin_locations (self : t) : list bin :=
  flat_map
    (fun level =>
       map (fun bay =>
              mk_bin (shelf_number self ++ "-" ++ format_02d level
                      ++ "-" ++ format_02d bay)%string
                     level bay)
           (range1 (bays self)))
    (range1 (levels self)).
End WarehouseShelf.

(** ** [TaskItem] ([inventory/models.py]) *)

Module TaskItem.
Inductive status_t : Type := pending | in_progress | completed | cancelled.

Record t : Type := mk {
  quantity : Z;
  quantity_completed : Z;
  status : status_t;
  scanned_barcode : string;
  scan_time : option Z;
  scanned_by : option Z;
  has_error : bool;
  error_type : string;
  error_description : string
}.

(** The two answers of [scan_item]: ['掃描成功'] and ['條碼驗證失敗']. *)
Inductive scan_message : Type := msg_scanned | msg_barcode_rejected.

Definition validate_barcode (self : t) (barcode : string) : bool := true.

(** [now] is [timezone.now()]; the value is [self] as [self.save()] writes
    it and the method's result. *)
Definition scan_item (now : Z) (self : t) (barcode : string) (staff : Z)
  : t * (bool * scan_message) :=
  let is_valid := validate_barcode self barcode in
  if is_valid then
    let quantity_completed := quantity_completed self + 1 in
    let status :=
      if quantity_completed >=? quantity self then completed else status self in
    (mk (quantity self) quantity_completed status barcode (Some now) (Some staff)
        (has_error self) (error_type self) (error_description self),
     (true, msg_scanned))
  else
    (mk (quantity self) (quantity_completed self) (status self)
        (scanned_barcode self) (scan_time self) (scanned_by self)
        true "invalid_barcode" ("無效條碼: " ++ barcode)%string,
     (false, msg_barcode_rejected)).
End TaskItem.

(** ** [WarehouseEquipment] *)

Module WarehouseEquipment.
Inductive status_t : Type := available | in_use | maintenance | out_of_service.

Definition status_eqb (a b : status_t) : bool :=
  match a, b with
  | available, available | in_use, in_use
  | maintenance, maintenance | out_of_service, out_of_service => true
  | _, _ => false
  end.

Record t : Type := mk {
  id : Z;
  status : status_t;
  next_maintenance : option Z;
  current_user : option Z
}.

(** [today] is [timezone.now().date()]. *)
Definition check_maintenance_due (today : Z) (self : t) : bool :=
  match next_maintenance self with
  | Some next_maintenance => today >=? next_maintenance
  | None => false
  end.

Definition assign_to_staff (self : t) (staff : Z) : t * bool :=
  if status_eqb (status self) available then
    (mk (id self) in_use (next_maintenance self) (Some staff), true)
  else (self, false).

Definition return_equipment (self : t) : t :=
  mk (id self) available (next_maintenance self) None.
End WarehouseEquipment.

(** ** [WarehouseSafetyCheck] *)

Module WarehouseSafetyCheck.
Inductive status_t : Type := pending | in_progress | completed | failed | corrected.

(** An entry of [results]: the keys [name], [description] and [passed], and
    the optional keys [severity] and [required_action]. *)
Record result : Type := mkResult {
  name : string;
  description : string;
  passed : bool;
  severity : option string;
  required_action : option string
}.

Record issue : Type := mkIssue {
  issue_item : string;
  issue_description : string;
  issue_severity : string;
  issue_required_action : string
}.

Record t : Type := mk {
  status : status_t;
  passed_items : Z;
  failed_items : Z;
  total_items : Z;
  issues_found : list issue;
  conducted_by : option Z;
  conducted_date : option Z
}.

Definition get (o : option string) (default : string) : string :=
  match o with
  | Some s => s
  | None => default
  end.

(** The loop of [process_results] with its three local variables. *)
Fixpoint tally (results : list result) (passed_n failed_n : Z) (issues : list issue)
  : Z * Z * list issue :=
  match results with
  | [] => (passed_n, failed_n, issues)
  | item :: results =>
      if passed item then tally results (passed_n + 1) failed_n issues
      else tally results passed_n (failed_n + 1)
                 (issues ++ [mkIssue (name item) (description item)
                                     (get (severity item) "low")
                                     (get (required_action item) "")])
  end.

Definition process_results (self : t) (results : list result) : t :=
  let '(passed_n, failed_n, issues) := tally results 0 0 [] in
  mk (if failed_n =? 0 then completed else failed)
     passed_n failed_n (Z.of_nat (List.length results)) issues
     (conducted_by self) (conducted_date self).

(** [today] is [timezone.now().date()]; the value is [self] as
    [self.save()] writes it. *)
Definition conduct_check (today : Z) (self : t) (staff : Z) (results : list result) : t :=
  let self := mk in_progress (passed_items self) (failed_items self)
                 (total_items self) (issues_found self) (Some staff) (Some today) in
  process_results self results.
End WarehouseSafetyCheck.

(** * Vocabulary of the statements *)

(** The stock-lot invariant of the specification. *)
Definition lot_invariant (i : Inventory.t) : Prop :=
  0 <= Inventory.reserved_quantity i <= Inventory.quantity i
  /\ Inventory.available_quantity i
     = Inventory.quantity i - Inventory.reserved_quantity i
  /\ 0 <= Inventory.available_quantity i.

Definition found {A : Type} (o : option A) : bool :=
  match o with
  | Some _ => true
  | None => false
  end.

(** Lot [k] exists and so does the product it belongs to: the two foreign
    keys a ledger method follows. *)
Definition resolvesb (db : DB) (k : Z) : bool :=
  match get_by Inventory.id k (inventories db) with
  | Some i =>
      match get_by Product.id (Inventory.product i) (products db) with
      | Some _ => true
      | None => false
      end
  | None => false
  end.

(** Referential integrity of allocation lines and adjustment items. *)
Definition lines_resolve (db : DB) : bool :=
  forallb (fun a => resolvesb db (ReservationAllocation.inventory a)) (allocations db).

Definition items_resolve (db : DB) : bool :=
  forallb (fun it => resolvesb db (AdjustmentItem.inventory it)) (adjustment_items db).

(** The quantities of lot [k], when it exists. *)
Definition lot_quantities (db : DB) (k : Z) : option (Z * Z * Z) :=
  match get_by Inventory.id k (inventories db) with
  | Some i => Some (Inventory.quantity i, Inventory.reserved_quantity i,
                    Inventory.available_quantity i)
  | None => None
  end.

Definition reservation_status (db : DB) (k : Z) : option StockReservation.status_t :=
  match get_by StockReservation.id k (reservations db) with
  | Some r => Some (StockReservation.status r)
  | None => None
  end.

(** The row a line of an adjustment writes over [lot]. *)
Definition adjusted (lot : Inventory.t) (item : AdjustmentItem.t) : Inventory.t :=
  let lot := Inventory.set_quantity lot
               (Z.max 0 (Inventory.quantity lot + AdjustmentItem.quantity_change item)) in
  Inventory.computed_fields
    match AdjustmentItem.adjustment_reason item with
    | AdjustmentItem.damaged => Inventory.set_status lot Inventory.damaged
    | AdjustmentItem.expired => Inventory.set_status lot Inventory.expired
    | _ => lot
    end.

(** C2 as the specification words it: the adjustment is turned down and lot
    [k] keeps its quantities. *)
Definition adjustment_rejected (adj : StockAdjustment.t) (db : DB) (k : Z) : Prop :=
  snd (StockAdjustment_apply_adjustment adj db) <> Returned true
  /\ lot_quantities (fst (StockAdjustment_apply_adjustment adj db)) k
     = lot_quantities db k.

(** The test of the guarded [get] of [release_stock] and [allocate_stock]. *)
Definition reserved_test (k : Z) (r : StockReservation.t) : bool :=
  (StockReservation.id r =? k)
  && StockReservation.status_in_reserved (StockReservation.status r).

(** C4 as the specification words it: two releases of reservation [k] in a
    row both return success, and the second leaves every lot as the first
    left it. *)
Definition release_twice_succeeds (now1 now2 k : Z) (db : DB) : Prop :=
  let first := InventoryService.release_stock now1 k db in
  let second := InventoryService.release_stock now2 k (fst first) in
  (exists m, snd first = Returned (true, m))
  /\ (exists m, snd second = Returned (true, m))
  /\ inventories (fst second) = inventories (fst first).

(** The row a lot's [reserve_stock] writes over [lot]. *)
Definition reserved_row (lot : Inventory.t) (q : Z) : Inventory.t :=
  Inventory.computed_fields
    (Inventory.set_reserved_quantity lot (Inventory.reserved_quantity lot + q)).

(** * Scenarios *)

Module Scenario.

(** An active lot of product 1 in warehouse 1, as saved. *)
Definition lot (id quantity reserved : Z) (expiry : option Z) (created : Z)
  : Inventory.t :=
  Inventory.mk id 1 1 quantity reserved (quantity - reserved) expiry
               250 (quantity * 250) Inventory.active created.

Definition product (allow_backorder : bool) : Product.t :=
  Product.mk 1 true allow_backorder 0.

Definition reservation (id quantity backorder : Z)
           (status : StockReservation.status_t) (expires_at : option Z)
  : StockReservation.t :=
  StockReservation.mk id 1 None None quantity backorder status expires_at None None.

(** One lot of 10 units, and an approved stock count that writes 5 of
    them off. *)
Definition write_off : StockAdjustment.t :=
  StockAdjustment.mk 7 StockAdjustment.approved.

Definition db_write_off : DB :=
  mkDB [product false] [lot 1 10 0 None 0] [] []
       [write_off] [AdjustmentItem.mk 7 1 (-5) AdjustmentItem.theft].

(** Reserve 8 of the 10 units, then apply the write-off. *)
Definition reserve_then_write_off : M bool :=
  lot <- get_inventory 1 ;;
  Inventory_reserve_stock lot 8 ;;;
  StockAdjustment_apply_adjustment write_off.

(** A lot holding 3 units and an approved adjustment of -5. *)
Definition db_over_adjust : DB :=
  mkDB [product false] [lot 1 3 0 None 0] [] []
       [write_off] [AdjustmentItem.mk 7 1 (-5) AdjustmentItem.counting_error].

(** The FEFO example of the specification: 5 units expiring 2024-01-01 and
    10 units expiring 2024-06-01 (dates as YYYYMMDD). *)
Definition db_fefo (allow_backorder : bool) : DB :=
  mkDB [product allow_backorder]
       [lot 1 5 0 (Some 20240101) 1; lot 2 10 0 (Some 20240601) 2]
       [] [] [] [].

(** The same two lots with the later expiry first in the default order. *)
Definition db_fefo_swapped : DB :=
  mkDB [product false]
       [lot 2 10 0 (Some 20240601) 2; lot 1 5 0 (Some 20240101) 1]
       [] [] [] [].

(** A reservation of 8 over two lots, 5 reserved on lot 1 and 3 on lot 2;
    lot 2 has since been adjusted down to 2 units on hand. *)
Definition db_two_lots : DB :=
  mkDB [product false]
       [lot 1 10 5 None 1; lot 2 2 3 None 2]
       [reservation 50 8 0 StockReservation.reserved None]
       [ReservationAllocation.mk 50 1 5; ReservationAllocation.mk 50 2 3]
       [] [].

(** A reservation of 8 with one line of 5 on lot 1: the lines add up to
    less than the reserved quantity. *)
Definition db_shortfall : DB :=
  mkDB [product false]
       [lot 1 10 5 None 1]
       [reservation 50 8 0 StockReservation.reserved None]
       [ReservationAllocation.mk 50 1 5]
       [] [].

(** A reservation of 5 on lot 1 that expired at time 1000. *)
Definition db_expired : DB :=
  mkDB [product false]
       [lot 1 10 5 None 1]
       [reservation 50 5 0 StockReservation.reserved (Some 1000)]
       [ReservationAllocation.mk 50 1 5]
       [] [].

(** Two reservations, both expired at time 1000, 2 units each on lot 1. *)
Definition db_two_expired : DB :=
  mkDB [product false]
       [lot 1 10 4 None 1]
       [reservation 51 2 0 StockReservation.reserved (Some 1000);
        reservation 52 2 0 StockReservation.reserved (Some 1000)]
       [ReservationAllocation.mk 51 1 2; ReservationAllocation.mk 52 1 2]
       [] [].

(** A release that the database refuses for reservation 52. *)
Definition release_failing_on_52 (now : Z) (reservation_id : Z) : M (bool * message) :=
  if reservation_id =? 52 then raise DatabaseError
  else InventoryService.release_stock now reservation_id.

End Scenario.


(** * Vocabulary of the further properties *)

Definition lots_ok (db : DB) : Prop :=
  forall i, In i (inventories db) -> lot_invariant i.

(** Every lot satisfies the lot invariant and no allocation line has a
    negative quantity. *)
Definition ledger_invariant (db : DB) : Prop :=
  (forall i, In i (inventories db) -> lot_invariant i)
  /\ (forall a, In a (allocations db) -> 0 <= ReservationAllocation.quantity a).

(** A run of scans on one task item, each with its time, barcode and staff:
    the item after the run and the answers of [scan_item] in order. *)
Definition scan_run (self : TaskItem.t) (scans : list (Z * string * Z))
  : TaskItem.t * list bool :=
  fold_left
    (fun (acc : TaskItem.t * list bool) (scan : Z * string * Z) =>
       let '(now, barcode, staff) := scan in
       let '(self, (ok, _)) := TaskItem.scan_item now (fst acc) barcode staff in
       (self, snd acc ++ [ok]))
    scans (self, []).

(** * Statements of the specification that the code does not meet *)

(** C8 on two expired reservations when the release of one of them raises:
    the other one is released by the pass all the same. *)
Definition sweep_isolates_failure : Prop :=
  reservation_status
    (fst (cleanup_with (Scenario.release_failing_on_52 2000) "inventory" 2000
            Scenario.db_two_expired)) 51
  = Some StockReservation.released.


(** * Further scenarios *)

Module Case.

(** Reservation 60 holds a line of 5 on lot 1, which has only 2 units
    reserved. *)
Definition db_stale_line : DB :=
  mkDB [Scenario.product false]
       [Scenario.lot 1 10 2 None 1]
       [Scenario.reservation 60 5 0 StockReservation.reserved None]
       [ReservationAllocation.mk 60 1 5]
       [] [].

End Case.

Module Case2.

(** A transfer out of warehouse 1 and an item of 4 units of product 1 that
    has no lot yet. *)
Definition transfer_item : TransferItem.t :=
  TransferItem.mk 70 (StockTransfer.mk 7 1 2) 1 None 4 250 1000 TransferItem.pending.

(** An order item of 5 units, 2 of them shipped, served from lot 1. *)
Definition order_item : OrderItem.t :=
  OrderItem.mk 80 1 5 300 1500 (Some 1) 2 0.

(** Lot 1 past its expiry date at day 20240301. *)
Definition db_past_expiry : DB :=
  mkDB [Scenario.product false]
       [Scenario.lot 1 5 2 (Some 20240101) 1; Scenario.lot 2 10 0 (Some 20240601) 2]
       [] [] [] [].

(** Reservation 51 expired at time 1000; reservation 53 runs until 9000. *)
Definition db_one_live : DB :=
  mkDB [Scenario.product false]
       [Scenario.lot 1 10 4 None 1]
       [Scenario.reservation 51 2 0 StockReservation.reserved (Some 1000);
        Scenario.reservation 53 2 0 StockReservation.reserved (Some 9000)]
       [ReservationAllocation.mk 51 1 2; ReservationAllocation.mk 53 1 2]
       [] [].

End Case2.

Module Case3.

(** An available forklift, and a scanner under maintenance. *)
Definition forklift : WarehouseEquipment.t :=
  WarehouseEquipment.mk 1 WarehouseEquipment.available (Some 20240301) None.

Definition scanner : WarehouseEquipment.t :=
  WarehouseEquipment.mk 2 WarehouseEquipment.maintenance None None.

End Case3.
(** * Properties *)

(** ** Tables *)

Section Tables.
Context {A : Type} (key : A -> Z).

Lemma get_by_upsert (x : A) (l : list A) (k : Z) :
  get_by key k (upsert key x l) =
  if key x =? k then Some x else get_by key k l.
Proof.
  unfold get_by. induction l as [|y l IH]; simpl.
  - destruct (key x =? k); reflexivity.
  - destruct (key y =? key x) eqn:Eyx; simpl.
    + apply Z.eqb_eq in Eyx. rewrite Eyx.
      destruct (key x =? k); reflexivity.
    + destruct (key y =? k) eqn:Eyk.
      * apply Z.eqb_eq in Eyk. subst k. rewrite Z.eqb_sym, Eyx. reflexivity.
      * exact IH.
Qed.

Lemma get_by_key (k : Z) (l : list A) (x : A) :
  get_by key k l = Some x -> key x = k.
Proof.
  unfold get_by. intros H. apply find_some in H.
  destruct H as [_ H]. now apply Z.eqb_eq in H.
Qed.

Lemma upsert_same (x : A) (l : list A) :
  get_by key (key x) l = Some x -> upsert key x l = l.
Proof.
  unfold get_by. induction l as [|y l IH]; simpl.
  - discriminate.
  - destruct (key y =? key x) eqn:E.
    + intros H. now inversion H.
    + intros H. now rewrite IH.
Qed.

Lemma upsert_upsert (x y : A) (l : list A) :
  key x = key y -> upsert key y (upsert key x l) = upsert key y l.
Proof.
  intros E. induction l as [|z l IH]; simpl.
  - rewrite E, Z.eqb_refl. reflexivity.
  - rewrite E. destruct (key z =? key y) eqn:Ez; simpl.
    + rewrite E, Z.eqb_refl. reflexivity.
    + rewrite Ez. now rewrite IH.
Qed.

Lemma get_by_exists (l : list A) (x : A) :
  In x l -> exists y, get_by key (key x) l = Some y.
Proof.
  unfold get_by. induction l as [|z l IH]; simpl; intros H; [contradiction|].
  destruct (key z =? key x) eqn:E.
  - now exists z.
  - destruct H as [->|H]; [now rewrite Z.eqb_refl in E|now apply IH].
Qed.

(** With unique keys a row is the one its key finds. *)
Lemma get_by_unique (l : list A) (x : A) :
  NoDup (map key l) -> In x l -> get_by key (key x) l = Some x.
Proof.
  unfold get_by. induction l as [|y l IH]; simpl; intros ND HI.
  - contradiction.
  - inversion ND as [|? ? Hnot ND']; subst.
    destruct HI as [->|HI].
    + now rewrite Z.eqb_refl.
    + destruct (key y =? key x) eqn:E.
      * apply Z.eqb_eq in E. exfalso. apply Hnot. rewrite E.
        now apply in_map.
      * now apply IH.
Qed.
End Tables.

(** ** Warehouse capacity *)

Section WarehouseCapacity.
Local Open Scope Q_scope.

Lemma negative_spec (x : Q) :
  Warehouse.negative x = true <-> x < 0.
Proof.
  unfold Warehouse.negative. rewrite negb_true_iff.
  destruct (Qle_bool 0 x) eqn:E.
  - apply Qle_bool_iff in E. split; [discriminate|].
    intros H. exfalso. exact (Qlt_not_le _ _ H E).
  - split; [intros _|reflexivity].
    apply Qnot_le_lt. intros H. apply Qle_bool_iff in H. congruence.
Qed.

Lemma clamp_nonneg (x : Q) :
  0 <= (if Warehouse.negative x then 0 else x).
Proof.
  destruct (Warehouse.negative x) eqn:E.
  - apply Qle_refl.
  - apply Qnot_lt_le. intros H. apply negative_spec in H. congruence.
Qed.

Lemma clamp_max (x : Q) :
  (if Warehouse.negative x then 0 else x) == Qmax 0 x.
Proof.
  destruct (Warehouse.negative x) eqn:E.
  - apply negative_spec in E. symmetry. apply Q.max_l. now apply Qlt_le_weak.
  - symmetry. apply Q.max_r. apply Qnot_lt_le. intros H.
    apply negative_spec in H. congruence.
Qed.

(** C10. Whatever the stored value, the volume and the action,
    [update_capacity] leaves [used_capacity >= 0]; a decrease yields
    [max 0 (used - volume)], so one larger than the current value gives 0;
    the method has no failure result. *)
Theorem update_capacity_never_negative
        (self : Warehouse.t) (volume_change : Q) (action : string) :
  0 <= Warehouse.used_capacity (Warehouse.update_capacity self volume_change action)
  /\ Warehouse.used_capacity (Warehouse.update_capacity self volume_change "decrease")
     == Qmax 0 (Warehouse.used_capacity self - volume_change)
  /\ Warehouse.used_capacity (Warehouse.update_capacity self volume_change "increase")
     == Qmax 0 (Warehouse.used_capacity self + volume_change).
Proof.
  unfold Warehouse.update_capacity. simpl. split; [|split].
  - apply clamp_nonneg.
  - apply clamp_max.
  - apply clamp_max.
Qed.

(** Removing more than is stored: 3 m3 used, 5 m3 removed, 0 left. *)
Example update_capacity_over_removal :
  Warehouse.update_capacity (Warehouse.mk 1 100 3) 5 "decrease"
  = Warehouse.mk 1 100 0.
Proof. reflexivity. Qed.
End WarehouseCapacity.

(** ** The monad *)

Lemma for_each_app {A : Type} (l1 l2 : list A) (body : A -> M unit) (db : DB) :
  for_each (l1 ++ l2) body db = (for_each l1 body ;;; for_each l2 body) db.
Proof.
  revert db. induction l1 as [|x l1 IH]; intros db; simpl.
  - reflexivity.
  - unfold bind in *. destruct (body x db) as [db1 [[]|e]].
    + apply IH.
    + reflexivity.
Qed.

(** Unfolding the monad's combinators. *)
Ltac run :=
  unfold bind, write, read, fetch, ret, raise in *; simpl in *.

(** ** [Inventory.save] *)

Lemma computed_fields_id (s : Inventory.t) :
  Inventory.id (Inventory.computed_fields s) = Inventory.id s.
Proof. reflexivity. Qed.

Lemma has_product_upsert (p q : Product.t) (l : list Product.t) (k : Z) :
  get_by Product.id (Product.id q) l = Some p ->
  found (get_by Product.id k (upsert Product.id q l))
  = found (get_by Product.id k l).
Proof.
  intros Hp. rewrite get_by_upsert.
  destruct (Product.id q =? k) eqn:E; [|reflexivity].
  apply Z.eqb_eq in E. subst k. now rewrite Hp.
Qed.

Lemma Inventory_save_frame (s : Inventory.t) (db : DB) :
  inventories (fst (Inventory_save s db))
  = upsert Inventory.id (Inventory.computed_fields s) (inventories db)
  /\ reservations (fst (Inventory_save s db)) = reservations db
  /\ allocations (fst (Inventory_save s db)) = allocations db
  /\ adjustments (fst (Inventory_save s db)) = adjustments db
  /\ adjustment_items (fst (Inventory_save s db)) = adjustment_items db.
Proof.
  unfold Inventory_save, update_product_stock, get_product. run.
  destruct (get_by Product.id (Inventory.product s) (products db));
    simpl; repeat split.
Qed.

Lemma Inventory_save_has_product (s : Inventory.t) (db : DB) (k : Z) :
  found (get_by Product.id k (products (fst (Inventory_save s db))))
  = found (get_by Product.id k (products db)).
Proof.
  unfold Inventory_save, update_product_stock, get_product. run.
  destruct (get_by Product.id (Inventory.product s) (products db)) as [p|] eqn:Hp;
    simpl; [|reflexivity].
  apply has_product_upsert with (p := p). simpl.
  now rewrite (get_by_key _ _ _ _ Hp).
Qed.

Lemma Inventory_save_value (s s' : Inventory.t) (db db' : DB) :
  Inventory_save s db = (db', Returned s') -> s' = Inventory.computed_fields s.
Proof.
  unfold Inventory_save, update_product_stock, get_product. run.
  destruct (get_by Product.id (Inventory.product s) (products db));
    simpl; intros H; inversion H; reflexivity.
Qed.

Lemma Inventory_save_returns (s : Inventory.t) (db : DB) (p : Product.t) :
  get_by Product.id (Inventory.product s) (products db) = Some p ->
  snd (Inventory_save s db) = Returned (Inventory.computed_fields s).
Proof.
  intros Hp. unfold Inventory_save, update_product_stock, get_product. run.
  now rewrite Hp.
Qed.

(** Saving a row over the row of the same product keeps every foreign key
    resolvable. *)
Lemma Inventory_save_resolves (s old : Inventory.t) (db : DB) (k : Z) :
  get_by Inventory.id (Inventory.id s) (inventories db) = Some old ->
  Inventory.product s = Inventory.product old ->
  resolvesb (fst (Inventory_save s db)) k = resolvesb db k.
Proof.
  intros Hold Hprod. unfold resolvesb.
  destruct (Inventory_save_frame s db) as [-> _].
  rewrite get_by_upsert, computed_fields_id.
  destruct (Inventory.id s =? k) eqn:E.
  - apply Z.eqb_eq in E. subst k. rewrite Hold. simpl. rewrite Hprod.
    apply Inventory_save_has_product.
  - destruct (get_by Inventory.id k (inventories db)); [|reflexivity].
    apply Inventory_save_has_product.
Qed.

(** What a save does when the two foreign keys resolve. *)
Lemma Inventory_save_spec (s old : Inventory.t) (db : DB) :
  get_by Inventory.id (Inventory.id s) (inventories db) = Some old ->
  Inventory.product s = Inventory.product old ->
  resolvesb db (Inventory.id s) = true ->
  exists db',
    Inventory_save s db = (db', Returned (Inventory.computed_fields s))
    /\ inventories db' = upsert Inventory.id (Inventory.computed_fields s) (inventories db)
    /\ reservations db' = reservations db
    /\ allocations db' = allocations db
    /\ adjustments db' = adjustments db
    /\ adjustment_items db' = adjustment_items db
    /\ (forall k, resolvesb db' k = resolvesb db k).
Proof.
  intros Hold Hprod Hres.
  exists (fst (Inventory_save s db)).
  destruct (Inventory_save_frame s db) as (Hi & Hr & Hal & Had & Hit).
  repeat split; try assumption.
  - unfold resolvesb in Hres. rewrite Hold, <- Hprod in Hres.
    destruct (get_by Product.id (Inventory.product s) (products db)) as [p|] eqn:Hp;
      [|discriminate].
    pose proof (Inventory_save_returns s db p Hp) as Hs.
    destruct (Inventory_save s db) as [d o]. simpl in *. now subst o.
  - intros k. now apply Inventory_save_resolves with (old := old).
Qed.

(** ** The three ledger methods keep the lot invariant *)

Lemma reserve_stock_keeps_invariant (self self' : Inventory.t) (q : Z)
      (ok : bool) (db db' : DB) :
  Inventory_reserve_stock self q db = (db', Returned (self', ok)) ->
  0 <= q -> lot_invariant self -> lot_invariant self'.
Proof.
  unfold Inventory_reserve_stock, lot_invariant. intros H Hq (Hr & Ha & Hn).
  destruct (Inventory.available_quantity self >=? q) eqn:E.
  - apply Z.geb_le in E. unfold bind in H.
    destruct (Inventory_save _ db) as [d [s|e]] eqn:Hs; [|discriminate].
    apply Inventory_save_value in Hs. inversion H; subst. simpl. lia.
  - inversion H; subst. lia.
Qed.

Lemma release_stock_keeps_invariant (self self' : Inventory.t) (q : Z)
      (ok : bool) (db db' : DB) :
  Inventory_release_stock self q db = (db', Returned (self', ok)) ->
  0 <= q -> lot_invariant self -> lot_invariant self'.
Proof.
  unfold Inventory_release_stock, lot_invariant. intros H Hq (Hr & Ha & Hn).
  destruct (Inventory.reserved_quantity self >=? q) eqn:E.
  - apply Z.geb_le in E. unfold bind in H.
    destruct (Inventory_save _ db) as [d [s|e]] eqn:Hs; [|discriminate].
    apply Inventory_save_value in Hs. inversion H; subst. simpl. lia.
  - inversion H; subst. lia.
Qed.

Lemma allocate_stock_keeps_invariant (self self' : Inventory.t) (q : Z)
      (ok : bool) (db db' : DB) :
  Inventory_allocate_stock self q db = (db', Returned (self', ok)) ->
  0 <= q -> lot_invariant self -> lot_invariant self'.
Proof.
  unfold Inventory_allocate_stock, lot_invariant. intros H Hq (Hr & Ha & Hn).
  destruct ((Inventory.reserved_quantity self >=? q)
            && (Inventory.quantity self >=? q)) eqn:E.
  - apply andb_true_iff in E. destruct E as [E1 E2].
    apply Z.geb_le in E1. apply Z.geb_le in E2. unfold bind in H.
    destruct (Inventory_save _ db) as [d [s|e]] eqn:Hs; [|discriminate].
    apply Inventory_save_value in Hs. inversion H; subst. simpl. lia.
  - inversion H; subst. lia.
Qed.

(** ** Adjustments *)

Lemma adjust_line_spec (item : AdjustmentItem.t) (lot : Inventory.t) (db : DB) :
  get_by Inventory.id (AdjustmentItem.inventory item) (inventories db) = Some lot ->
  resolvesb db (AdjustmentItem.inventory item) = true ->
  exists db',
    adjust_line item db = (db', Returned tt)
    /\ inventories db' = upsert Inventory.id (adjusted lot item) (inventories db)
    /\ adjustments db' = adjustments db
    /\ adjustment_items db' = adjustment_items db
    /\ (forall k, resolvesb db' k = resolvesb db k).
Proof.
  intros Hlot Hres.
  pose proof (get_by_key _ _ _ _ Hlot) as Hid.
  set (row :=
    match AdjustmentItem.adjustment_reason item with
    | AdjustmentItem.damaged =>
        Inventory.set_status
          (Inventory.set_quantity lot
             (Z.max 0 (Inventory.quantity lot + AdjustmentItem.quantity_change item)))
          Inventory.damaged
    | AdjustmentItem.expired =>
        Inventory.set_status
          (Inventory.set_quantity lot
             (Z.max 0 (Inventory.quantity lot + AdjustmentItem.quantity_change item)))
          Inventory.expired
    | _ => Inventory.set_quantity lot
             (Z.max 0 (Inventory.quantity lot + AdjustmentItem.quantity_change item))
    end).
  assert (Hrow_id : Inventory.id row = Inventory.id lot)
    by (unfold row; destruct (AdjustmentItem.adjustment_reason item); reflexivity).
  assert (Hrow_prod : Inventory.product row = Inventory.product lot)
    by (unfold row; destruct (AdjustmentItem.adjustment_reason item); reflexivity).
  destruct (Inventory_save_spec row lot db) as (db' & Hsave & Hi & _ & _ & Had & Hit & Hk).
  { now rewrite Hrow_id, Hid. }
  { exact Hrow_prod. }
  { now rewrite Hrow_id, Hid. }
  exists db'. repeat split; try assumption.
  unfold adjust_line, get_inventory. run. rewrite Hlot. simpl.
  assert (Hsame :
    (match AdjustmentItem.adjustment_reason item with
     | AdjustmentItem.damaged =>
         Inventory.set_status
           (if Inventory.quantity lot + AdjustmentItem.quantity_change item <? 0
            then Inventory.set_quantity
                   (Inventory.set_quantity lot
                      (Inventory.quantity lot + AdjustmentItem.quantity_change item)) 0
            else Inventory.set_quantity lot
                   (Inventory.quantity lot + AdjustmentItem.quantity_change item))
           Inventory.damaged
     | AdjustmentItem.expired =>
         Inventory.set_status
           (if Inventory.quantity lot + AdjustmentItem.quantity_change item <? 0
            then Inventory.set_quantity
                   (Inventory.set_quantity lot
                      (Inventory.quantity lot + AdjustmentItem.quantity_change item)) 0
            else Inventory.set_quantity lot
                   (Inventory.quantity lot + AdjustmentItem.quantity_change item))
           Inventory.expired
     | _ =>
         if Inventory.quantity lot + AdjustmentItem.quantity_change item <? 0
         then Inventory.set_quantity
                (Inventory.set_quantity lot
                   (Inventory.quantity lot + AdjustmentItem.quantity_change item)) 0
         else Inventory.set_quantity lot
                (Inventory.quantity lot + AdjustmentItem.quantity_change item)
     end) = row).
  { unfold row.
    destruct (Z.ltb_spec (Inventory.quantity lot + AdjustmentItem.quantity_change item) 0);
      [rewrite Z.max_l by lia | rewrite Z.max_r by lia];
      destruct (AdjustmentItem.adjustment_reason item); reflexivity. }
  rewrite Hsame. unfold bind in Hsave |- *. rewrite Hsave. reflexivity.
Qed.

Lemma resolvesb_lot (db : DB) (k : Z) :
  resolvesb db k = true ->
  exists lot, get_by Inventory.id k (inventories db) = Some lot.
Proof.
  unfold resolvesb.
  destruct (get_by Inventory.id k (inventories db)) as [lot|]; [|discriminate].
  intros _. now exists lot.
Qed.

Lemma adjusted_id (lot : Inventory.t) (item : AdjustmentItem.t) :
  Inventory.id (adjusted lot item) = Inventory.id lot.
Proof.
  unfold adjusted. destruct (AdjustmentItem.adjustment_reason item); reflexivity.
Qed.

(** Lines on other lots run to their end and leave lot [k] as it is. *)
Lemma adjust_other_lots (k : Z) (lines : list AdjustmentItem.t) (db : DB) :
  (forall it, In it lines -> resolvesb db (AdjustmentItem.inventory it) = true) ->
  (forall it, In it lines -> AdjustmentItem.inventory it <> k) ->
  exists db',
    for_each lines adjust_line db = (db', Returned tt)
    /\ get_by Inventory.id k (inventories db') = get_by Inventory.id k (inventories db)
    /\ adjustments db' = adjustments db
    /\ (forall k', resolvesb db' k' = resolvesb db k').
Proof.
  revert db. induction lines as [|it lines IH]; intros db Hres Hk; simpl.
  - exists db. repeat split.
  - destruct (resolvesb_lot db _ (Hres it (or_introl eq_refl))) as [lot Hlot].
    destruct (adjust_line_spec it lot db Hlot (Hres it (or_introl eq_refl)))
      as (db1 & Hrun & Hi & Had & _ & Hr).
    destruct (IH db1) as (db2 & Hrun2 & Hi2 & Had2 & Hr2).
    { intros it' Hin. rewrite Hr. apply Hres. now right. }
    { intros it' Hin. apply Hk. now right. }
    exists db2. repeat split.
    + unfold bind. now rewrite Hrun.
    + rewrite Hi2, Hi, get_by_upsert, adjusted_id.
      rewrite (get_by_key _ _ _ _ Hlot).
      destruct (AdjustmentItem.inventory it =? k) eqn:E; [|reflexivity].
      apply Z.eqb_eq in E. exfalso. exact (Hk it (or_introl eq_refl) E).
    + congruence.
    + intros k'. now rewrite Hr2, Hr.
Qed.

(** C1, at the failing run. From one valid lot (10 on hand, none reserved),
    reserving 8 and applying an approved adjustment of -5 returns [True] and
    leaves the lot with 5 on hand, 8 reserved and -3 available: the
    adjustment lowers [quantity] without looking at [reserved_quantity]. *)
Theorem adjustment_breaks_lot_invariant :
  (forall i, In i (inventories Scenario.db_write_off) -> lot_invariant i)
  /\ exists db' i,
       Scenario.reserve_then_write_off Scenario.db_write_off = (db', Returned true)
       /\ get_by Inventory.id 1 (inventories db') = Some i
       /\ Inventory.quantity i = 5
       /\ Inventory.reserved_quantity i = 8
       /\ Inventory.available_quantity i = -3
       /\ ~ lot_invariant i.
Proof.
  split.
  - intros i [<-|[]]. unfold lot_invariant. simpl. lia.
  - eexists. eexists. split; [vm_compute; reflexivity|].
    split; [vm_compute; reflexivity|].
    simpl. repeat split; try reflexivity.
    unfold lot_invariant. simpl. lia.
Qed.

(** C2 as stated fails: on a lot of 3 an approved adjustment of -5 returns
    [True] and the lot's quantity becomes 0. *)
Lemma over_adjustment_is_not_rejected :
  ~ adjustment_rejected Scenario.write_off Scenario.db_over_adjust 1.
Proof.
  intros [H _]. apply H. vm_compute. reflexivity.
Qed.

Example over_adjustment_result :
  lot_quantities Scenario.db_over_adjust 1 = Some (3, 0, 3)
  /\ snd (StockAdjustment_apply_adjustment Scenario.write_off Scenario.db_over_adjust)
     = Returned true
  /\ lot_quantities
       (fst (StockAdjustment_apply_adjustment Scenario.write_off Scenario.db_over_adjust)) 1
     = Some (0, 0, 0).
Proof. vm_compute. repeat split. Qed.

(** C2, amended. An approved adjustment whose items resolve returns [True];
    a lot touched by one line only, with [quantity + quantity_change < 0],
    ends with quantity 0 (clamped), its reserved quantity as before and
    available quantity recomputed from the two. *)
Theorem adjustment_clamps_at_zero
        (adj : StockAdjustment.t) (db : DB)
        (pre post : list AdjustmentItem.t) (item : AdjustmentItem.t)
        (lot : Inventory.t) :
  StockAdjustment.status adj = StockAdjustment.approved ->
  items_of (StockAdjustment.id adj) db = pre ++ item :: post ->
  (forall it, In it (pre ++ post) ->
              AdjustmentItem.inventory it <> AdjustmentItem.inventory item) ->
  items_resolve db = true ->
  get_by Inventory.id (AdjustmentItem.inventory item) (inventories db) = Some lot ->
  Inventory.quantity lot + AdjustmentItem.quantity_change item < 0 ->
  exists db',
    StockAdjustment_apply_adjustment adj db = (db', Returned true)
    /\ lot_quantities db' (AdjustmentItem.inventory item)
       = Some (0, Inventory.reserved_quantity lot, 0 - Inventory.reserved_quantity lot).
Proof.
  intros Happ Hitems Hothers Hres Hlot Hneg.
  set (k := AdjustmentItem.inventory item) in *.
  assert (Hall : forall it, In it (pre ++ item :: post) ->
                            resolvesb db (AdjustmentItem.inventory it) = true).
  { intros it Hin. rewrite <- Hitems in Hin. unfold items_of in Hin.
    apply filter_In in Hin. destruct Hin as [Hin _].
    unfold items_resolve in Hres. rewrite forallb_forall in Hres.
    now apply Hres. }
  destruct (adjust_other_lots k pre db) as (db1 & Hrun1 & Hk1 & _ & Hr1).
  { intros it Hin. apply Hall. apply in_or_app. now left. }
  { intros it Hin. apply Hothers. apply in_or_app. now left. }
  rewrite Hlot in Hk1.
  destruct (adjust_line_spec item lot db1 Hk1) as (db2 & Hrun2 & Hi2 & _ & _ & Hr2).
  { rewrite Hr1. apply Hall. apply in_or_app. right. now left. }
  destruct (adjust_other_lots k post db2) as (db3 & Hrun3 & Hk3 & _ & _).
  { intros it Hin. rewrite Hr2, Hr1. apply Hall. apply in_or_app. right. now right. }
  { intros it Hin. apply Hothers. apply in_or_app. now right. }
  exists (with_adjustments db3
            (upsert StockAdjustment.id
               (StockAdjustment.mk (StockAdjustment.id adj) StockAdjustment.completed)
               (adjustments db3))).
  split.
  - unfold StockAdjustment_apply_adjustment. rewrite Happ.
    unfold bind at 1. unfold read at 1. rewrite Hitems.
    unfold bind at 1. rewrite for_each_app. unfold bind at 1. rewrite Hrun1.
    simpl for_each. unfold bind at 1. unfold bind at 1. rewrite Hrun2.
    rewrite Hrun3. reflexivity.
  - unfold lot_quantities. simpl inventories. rewrite Hk3, Hi2, get_by_upsert, adjusted_id.
    rewrite (get_by_key _ _ _ _ Hlot). fold k. rewrite Z.eqb_refl.
    unfold adjusted. rewrite Z.max_l by lia.
    destruct (AdjustmentItem.adjustment_reason item); reflexivity.
Qed.

(** The hypotheses of [adjustment_clamps_at_zero] hold of the lot of 3 and
    the adjustment of -5. *)
Lemma adjustment_clamps_at_zero_witness :
  exists db',
    StockAdjustment_apply_adjustment Scenario.write_off Scenario.db_over_adjust
    = (db', Returned true)
    /\ lot_quantities db' 1 = Some (0, 0, 0).
Proof.
  apply (adjustment_clamps_at_zero Scenario.write_off Scenario.db_over_adjust
           [] [] (AdjustmentItem.mk 7 1 (-5) AdjustmentItem.counting_error)
           (Scenario.lot 1 3 0 None 0)).
  - reflexivity.
  - reflexivity.
  - intros it [].
  - reflexivity.
  - reflexivity.
  - simpl. lia.
Defined.

(** ** Releasing a reservation *)

Lemma Inventory_release_stock_frame (lot : Inventory.t) (q : Z) (db : DB) :
  reservations (fst (Inventory_release_stock lot q db)) = reservations db
  /\ allocations (fst (Inventory_release_stock lot q db)) = allocations db.
Proof.
  unfold Inventory_release_stock.
  destruct (Inventory.reserved_quantity lot >=? q); [|split; reflexivity].
  unfold bind.
  destruct (Inventory_save_frame
              (Inventory.set_reserved_quantity lot (Inventory.reserved_quantity lot - q)) db)
    as (_ & Hr & Ha & _).
  destruct (Inventory_save _ db) as [d [s|e]]; simpl in *; now split.
Qed.

Lemma release_line_frame (a : ReservationAllocation.t) (db : DB) :
  reservations (fst (InventoryService.release_line a db)) = reservations db
  /\ allocations (fst (InventoryService.release_line a db)) = allocations db.
Proof.
  unfold InventoryService.release_line, get_inventory. run.
  destruct (get_by Inventory.id (ReservationAllocation.inventory a) (inventories db))
    as [lot|]; simpl; [|split; reflexivity].
  destruct (Inventory_release_stock_frame lot (ReservationAllocation.quantity a) db)
    as [Hr Ha].
  destruct (Inventory_release_stock lot (ReservationAllocation.quantity a) db)
    as [d [v|e]]; simpl in *; now split.
Qed.

Lemma release_lines_frame (lines : list ReservationAllocation.t) (db : DB) :
  reservations (fst (for_each lines InventoryService.release_line db)) = reservations db
  /\ allocations (fst (for_each lines InventoryService.release_line db)) = allocations db.
Proof.
  revert db. induction lines as [|a lines IH]; intros db; simpl.
  - split; reflexivity.
  - unfold bind. destruct (release_line_frame a db) as [Hr Ha].
    destruct (InventoryService.release_line a db) as [d [[]|e]]; simpl in *.
    + destruct (IH d) as [Hr' Ha']. split; congruence.
    + now split.
Qed.

Lemma find_reserved_absent (k : Z) (l : list StockReservation.t) :
  ~ In k (map StockReservation.id l) -> find (reserved_test k) l = None.
Proof.
  induction l as [|y l IH]; simpl; intros H; [reflexivity|].
  unfold reserved_test at 1.
  destruct (StockReservation.id y =? k) eqn:E.
  - apply Z.eqb_eq in E. exfalso. apply H. now left.
  - simpl. apply IH. intros Hin. apply H. now right.
Qed.

(** With unique keys, the released row is the only row of its key, and the
    guarded [get] no longer finds it. *)
Lemma find_reserved_after_release (k now : Z) (l : list StockReservation.t)
      (r : StockReservation.t) :
  NoDup (map StockReservation.id l) ->
  find (reserved_test k) l = Some r ->
  find (reserved_test k)
       (upsert StockReservation.id (StockReservation.mark_released r now) l) = None.
Proof.
  induction l as [|y l IH]; simpl; intros ND H; [discriminate|].
  inversion ND as [|? ? Hnot ND']; subst.
  destruct (reserved_test k y) eqn:Ey.
  - inversion H; subst y. rewrite Z.eqb_refl. simpl.
    unfold reserved_test in Ey. apply andb_true_iff in Ey. destruct Ey as [Ek _].
    apply Z.eqb_eq in Ek. unfold reserved_test at 1. simpl.
    rewrite andb_false_r. apply find_reserved_absent. now rewrite <- Ek.
  - pose proof (find_some _ _ H) as [Hin Hr].
    unfold reserved_test in Hr. apply andb_true_iff in Hr. destruct Hr as [Hk _].
    apply Z.eqb_eq in Hk.
    change (StockReservation.id (StockReservation.mark_released r now))
      with (StockReservation.id r).
    destruct (StockReservation.id y =? StockReservation.id r) eqn:Eyr.
    + apply Z.eqb_eq in Eyr. exfalso. apply Hnot. rewrite Eyr.
      now apply in_map.
    + simpl. rewrite Ey. now apply IH.
Qed.

(** C4 as stated fails: the second release of reservation 50 returns
    [(False, ...)]. *)
Lemma second_release_is_not_ok :
  ~ release_twice_succeeds 2000 2001 50 Scenario.db_expired.
Proof.
  unfold release_twice_succeeds. intros (_ & [m H] & _).
  vm_compute in H. discriminate H.
Qed.

(** C4, amended. After a release that returned success, a second release
    of the same reservation returns [(False, not found or already released)]
    and leaves the whole database, so every lot, as the first call left it. *)
Theorem second_release_is_refused
        (now1 now2 reservation_id : Z) (db db1 : DB) (m : message) :
  NoDup (map StockReservation.id (reservations db)) ->
  InventoryService.release_stock now1 reservation_id db = (db1, Returned (true, m)) ->
  InventoryService.release_stock now2 reservation_id db1
  = (db1, Returned (false, msg_not_found_or_released)).
Proof.
  intros ND H1. unfold InventoryService.release_stock, atomic in H1.
  unfold bind at 1 in H1. unfold read at 1 in H1.
  destruct (InventoryService.get_reserved reservation_id db) as [r|] eqn:Hget;
    [|discriminate].
  unfold bind at 1 in H1.
  destruct (release_lines_frame
              (InventoryService.allocations_of (StockReservation.id r) db) db)
    as [Hres _].
  destruct (for_each _ InventoryService.release_line db) as [d [[]|e]];
    simpl in *; [|discriminate].
  inversion H1; subst db1 m. clear H1.
  unfold InventoryService.release_stock, atomic.
  unfold bind at 1. unfold read at 1.
  unfold InventoryService.get_reserved. simpl reservations. rewrite Hres.
  unfold InventoryService.get_reserved in Hget.
  change (fun r0 : StockReservation.t =>
            (StockReservation.id r0 =? reservation_id)
            && StockReservation.status_in_reserved (StockReservation.status r0))
    with (reserved_test reservation_id) in *.
  simpl (reservations (with_reservations _ _)).
  rewrite (find_reserved_after_release _ _ _ _ ND Hget). reflexivity.
Qed.

(** Reservation 50 is released at time 2000 and again at time 2001. *)
Lemma second_release_is_refused_witness :
  InventoryService.release_stock 2001 50
    (fst (InventoryService.release_stock 2000 50 Scenario.db_expired))
  = (fst (InventoryService.release_stock 2000 50 Scenario.db_expired),
     Returned (false, msg_not_found_or_released)).
Proof.
  apply (second_release_is_refused 2000 2001 50 Scenario.db_expired _ msg_released).
  - simpl. constructor; [intros []|constructor].
  - vm_compute. reflexivity.
Defined.

(** ** Reserving stock *)

(** [inventory/models.py] binds the two classes [reserve_stock] imports, and
    no [Product]. *)
Lemma import_of_reserve_stock :
  from_models_import ["Inventory"; "StockReservation"]%string = ret tt.
Proof. reflexivity. Qed.

Lemma import_of_check_product_availability :
  from_models_import ["Inventory"; "Product"]%string = raise ImportError.
Proof. reflexivity. Qed.

(** [check_product_availability] stops at its import. *)
Lemma check_product_availability_run
      (product_id quantity : Z) (warehouse_id : option Z) (db : DB) :
  InventoryService.check_product_availability product_id quantity warehouse_id db
  = (db, Raised ImportError).
Proof.
  unfold InventoryService.check_product_availability.
  rewrite import_of_check_product_availability. reflexivity.
Qed.

(** So does [reserve_stock], at its first call; the exception leaves the
    atomic block. *)
Lemma reserve_stock_run
      (new_id product_id quantity : Z)
      (order_id customer_id warehouse_id : option Z) (db : DB) :
  InventoryService.reserve_stock new_id product_id quantity
    order_id customer_id warehouse_id db
  = (db, Raised ImportError).
Proof.
  unfold InventoryService.reserve_stock, atomic.
  rewrite import_of_reserve_stock. unfold bind at 1, ret at 1.
  unfold bind at 1. now rewrite check_product_availability_run.
Qed.

(** C5, at the failing input. Of the lots of 5 (expiring 2024-01-01) and 10
    (expiring 2024-06-01), the specification has a reservation of 8 take 5
    from the first and 3 from the second. [reserve_stock] calls
    [check_product_availability], whose import of [Product] from
    [inventory/models.py] raises [ImportError]: the call raises, no
    allocation line and no reservation is made, and both lots are as they
    were. *)
Theorem fefo_reservation_raises_import_error :
  InventoryService.reserve_stock 100 1 8 None None None (Scenario.db_fefo false)
  = (Scenario.db_fefo false, Raised ImportError)
  /\ allocations
       (fst (InventoryService.reserve_stock 100 1 8 None None None
               (Scenario.db_fefo false))) = []
  /\ lot_quantities
       (fst (InventoryService.reserve_stock 100 1 8 None None None
               (Scenario.db_fefo false))) 1 = Some (5, 0, 5)
  /\ lot_quantities
       (fst (InventoryService.reserve_stock 100 1 8 None None None
               (Scenario.db_fefo false))) 2 = Some (10, 0, 10).
Proof.
  rewrite reserve_stock_run. repeat split.
Qed.

(** C7, at the failing input. The lots hold 15 units and 20 are requested.
    With backorders allowed for the product the specification has the
    reservation made, with the shortfall of 5 as its backorder quantity and
    the status [partially_reserved]; without, a refusal for insufficient
    stock. [reserve_stock] raises [ImportError] in both cases and makes no
    reservation. *)
Theorem backorder_reservation_raises_import_error (allow_backorder : bool) :
  InventoryService.reserve_stock 100 1 20 None None None
    (Scenario.db_fefo allow_backorder)
  = (Scenario.db_fefo allow_backorder, Raised ImportError)
  /\ reservations
       (fst (InventoryService.reserve_stock 100 1 20 None None None
               (Scenario.db_fefo allow_backorder))) = [].
Proof.
  rewrite reserve_stock_run. split; reflexivity.
Qed.

(** ** Reserve, then release *)





(** ** Allocating a reservation *)

Lemma get_reserved_other_status (k : Z) (db : DB) :
  (forall r, In r (reservations db) -> StockReservation.id r = k ->
             StockReservation.status_in_reserved (StockReservation.status r) = false) ->
  InventoryService.get_reserved k db = None.
Proof.
  intros H. unfold InventoryService.get_reserved.
  destruct (find _ (reservations db)) as [r|] eqn:E; [|reflexivity].
  apply find_some in E. destruct E as [Hin Ht].
  apply andb_true_iff in Ht. destruct Ht as [Hk Hs]. apply Z.eqb_eq in Hk.
  rewrite (H r Hin Hk) in Hs. discriminate.
Qed.

(** [services.py] binds no name [models]. *)
Lemma models_is_unbound : global_name "models" = raise NameError.
Proof. reflexivity. Qed.

(** What [allocate_stock] does: a reservation that the guarded [get] does
    not find is refused; for one it finds, the read of [models] raises
    [NameError] before the lines are added up, and the exception leaves the
    atomic block. *)
Lemma allocate_stock_run (now k : Z) (db : DB) :
  InventoryService.allocate_stock now k db
  = (db, match InventoryService.get_reserved k db with
         | Some _ => Raised NameError
         | None => Returned (false, msg_not_found)
         end).
Proof.
  unfold InventoryService.allocate_stock, atomic.
  change (from_models_import ["StockReservation"]%string) with (@ret unit tt).
  unfold bind at 1, ret at 1. unfold bind at 1, read at 1.
  destruct (InventoryService.get_reserved k db) as [r|]; [|reflexivity].
  cbv zeta. rewrite models_is_unbound. reflexivity.
Qed.

(** A reservation whose status is neither [reserved] nor
    [partially_reserved] is not found by the guarded [get]: the allocation
    is refused and nothing is written. *)
Lemma allocate_refuses_other_status (now k : Z) (db : DB) :
  (forall r, In r (reservations db) -> StockReservation.id r = k ->
             StockReservation.status_in_reserved (StockReservation.status r) = false) ->
  InventoryService.allocate_stock now k db = (db, Returned (false, msg_not_found)).
Proof.
  intros H. apply get_reserved_other_status in H.
  now rewrite allocate_stock_run, H.
Qed.

(** C3, at the failing inputs. Reservation 50 is for 8 units. When its one
    line holds 5 of them the specification has the allocation refused for
    the shortfall; when its two lines hold 5 and 3 and the second lot has 2
    units on hand, it has the commit of the first lot undone. In both cases
    [allocate_stock] raises [NameError] at [models.Sum], before the
    shortfall test and the loop: nothing is written, which leaves every lot
    at its values, and no shortfall is ever reported. *)
Theorem allocation_raises_before_the_shortfall_test (now : Z) :
  Sum ReservationAllocation.quantity
      (InventoryService.allocations_of 50 Scenario.db_shortfall) = 5
  /\ InventoryService.allocate_stock now 50 Scenario.db_shortfall
     = (Scenario.db_shortfall, Raised NameError)
  /\ InventoryService.allocate_stock now 50 Scenario.db_two_lots
     = (Scenario.db_two_lots, Raised NameError).
Proof.
  rewrite !allocate_stock_run. repeat split.
Qed.

(** C6, at the failing input. Reservation 50 expired at time 1000: at time
    5000 [can_allocate] is false, at time 500 it is true. The
    specification has the allocation of the expired reservation refused as
    expired. [allocate_stock] raises [NameError] at time 5000 as it does at
    time 500: the service never reads [expires_at], and what stops the
    allocation is the unbound name. No lot is written. *)
Theorem expired_reservation_raises_name_error :
  StockReservation.can_allocate
    (Scenario.reservation 50 5 0 StockReservation.reserved (Some 1000)) 5000 = false
  /\ StockReservation.can_allocate
       (Scenario.reservation 50 5 0 StockReservation.reserved (Some 1000)) 500 = true
  /\ InventoryService.allocate_stock 5000 50 Scenario.db_expired
     = (Scenario.db_expired, Raised NameError)
  /\ InventoryService.allocate_stock 500 50 Scenario.db_expired
     = (Scenario.db_expired, Raised NameError).
Proof.
  rewrite !allocate_stock_run. repeat split.
Qed.

(** ** The expiry sweeper *)

Section TableKeys.
Context {A : Type} (key : A -> Z).

Lemma map_key_upsert (x y : A) (l : list A) :
  get_by key (key x) l = Some y -> map key (upsert key x l) = map key l.
Proof.
  unfold get_by. induction l as [|z l IH]; simpl; [discriminate|].
  destruct (key z =? key x) eqn:E; simpl.
  - intros _. apply Z.eqb_eq in E. now rewrite E.
  - intros H. now rewrite IH.
Qed.

Lemma In_upsert_other (x y : A) (l : list A) :
  In y l -> key y <> key x -> In y (upsert key x l).
Proof.
  induction l as [|z l IH]; simpl; [contradiction|].
  intros [->|H] Hne.
  - destruct (key y =? key x) eqn:E; [apply Z.eqb_eq in E; contradiction|now left].
  - destruct (key z =? key x); right; auto.
Qed.

Lemma NoDup_map_filter (p : A -> bool) (l : list A) :
  NoDup (map key l) -> NoDup (map key (filter p l)).
Proof.
  induction l as [|z l IH]; simpl; intros ND; [constructor|].
  inversion ND as [|? ? Hnot ND']; subst.
  destruct (p z); simpl; [|now apply IH].
  constructor; [|now apply IH].
  intros Hin. apply Hnot. apply in_map_iff in Hin.
  destruct Hin as (w & Hw & Hin). apply filter_In in Hin.
  rewrite <- Hw. apply in_map. tauto.
Qed.
End TableKeys.

Lemma find_reserved_unique (l : list StockReservation.t) (r : StockReservation.t) :
  NoDup (map StockReservation.id l) -> In r l ->
  StockReservation.status_in_reserved (StockReservation.status r) = true ->
  find (reserved_test (StockReservation.id r)) l = Some r.
Proof.
  induction l as [|y l IH]; simpl; intros ND Hin Hs; [contradiction|].
  inversion ND as [|? ? Hnot ND']; subst.
  destruct Hin as [->|Hin].
  - unfold reserved_test. now rewrite Z.eqb_refl, Hs.
  - unfold reserved_test at 1.
    destruct (StockReservation.id y =? StockReservation.id r) eqn:E.
    + apply Z.eqb_eq in E. exfalso. apply Hnot. rewrite E. now apply in_map.
    + simpl. now apply IH.
Qed.

Lemma Inventory_release_stock_runs (lot : Inventory.t) (q : Z) (db : DB) :
  get_by Inventory.id (Inventory.id lot) (inventories db) = Some lot ->
  resolvesb db (Inventory.id lot) = true ->
  exists db' v,
    Inventory_release_stock lot q db = (db', Returned v)
    /\ (forall k, resolvesb db' k = resolvesb db k).
Proof.
  intros Hlot Hres. unfold Inventory_release_stock.
  destruct (Inventory.reserved_quantity lot >=? q).
  - destruct (Inventory_save_spec
                (Inventory.set_reserved_quantity lot (Inventory.reserved_quantity lot - q))
                lot db Hlot eq_refl Hres) as (db' & Hs & _ & _ & _ & _ & _ & Hk).
    exists db'. eexists. split; [|exact Hk].
    unfold bind. rewrite Hs. reflexivity.
  - exists db. eexists. split; [reflexivity|auto].
Qed.

Lemma release_line_runs (a : ReservationAllocation.t) (db : DB) :
  resolvesb db (ReservationAllocation.inventory a) = true ->
  exists db',
    InventoryService.release_line a db = (db', Returned tt)
    /\ (forall k, resolvesb db' k = resolvesb db k).
Proof.
  intros Hres. destruct (resolvesb_lot db _ Hres) as [lot Hlot].
  pose proof (get_by_key _ _ _ _ Hlot) as Hid.
  destruct (Inventory_release_stock_runs lot (ReservationAllocation.quantity a) db)
    as (db' & v & Hrun & Hk).
  { now rewrite Hid. }
  { now rewrite Hid. }
  exists db'. split; [|exact Hk].
  unfold InventoryService.release_line, get_inventory. run.
  rewrite Hlot. simpl. now rewrite Hrun.
Qed.

Lemma release_lines_run (lines : list ReservationAllocation.t) (db : DB) :
  (forall a, In a lines -> resolvesb db (ReservationAllocation.inventory a) = true) ->
  exists db',
    for_each lines InventoryService.release_line db = (db', Returned tt)
    /\ (forall k, resolvesb db' k = resolvesb db k).
Proof.
  revert db. induction lines as [|a lines IH]; intros db Hres; simpl.
  - exists db. split; [reflexivity|auto].
  - destruct (release_line_runs a db (Hres a (or_introl eq_refl))) as (db1 & Hrun & Hk).
    destruct (IH db1) as (db2 & Hrun2 & Hk2).
    { intros a' Hin. rewrite Hk. apply Hres. now right. }
    exists db2. split.
    + unfold bind. now rewrite Hrun.
    + intros k. now rewrite Hk2, Hk.
Qed.

(** With resolvable allocation lines the release of a reservation that the
    guarded [get] finds returns success and marks its row. *)
Lemma release_stock_runs (now k : Z) (db : DB) (r : StockReservation.t) :
  InventoryService.get_reserved k db = Some r ->
  lines_resolve db = true ->
  exists db',
    InventoryService.release_stock now k db = (db', Returned (true, msg_released))
    /\ reservations db'
       = upsert StockReservation.id (StockReservation.mark_released r now)
                (reservations db)
    /\ lines_resolve db' = true.
Proof.
  intros Hget Hres.
  set (lines := InventoryService.allocations_of (StockReservation.id r) db).
  destruct (release_lines_run lines db) as (d & Hrun & Hk).
  { intros a Hin. unfold lines, InventoryService.allocations_of in Hin.
    apply filter_In in Hin. destruct Hin as [Hin _].
    unfold lines_resolve in Hres. rewrite forallb_forall in Hres. now apply Hres. }
  destruct (release_lines_frame lines db) as [Hr Ha].
  rewrite Hrun in Hr, Ha. simpl in Hr, Ha.
  exists (with_reservations d
            (upsert StockReservation.id (StockReservation.mark_released r now)
               (reservations d))).
  split; [|split].
  - unfold InventoryService.release_stock, atomic.
    unfold bind at 1. unfold read at 1. rewrite Hget. fold lines.
    unfold bind at 1. rewrite Hrun. reflexivity.
  - simpl. now rewrite Hr.
  - unfold lines_resolve in *. simpl allocations. rewrite Ha.
    rewrite forallb_forall in *. intros a Hin.
    change (resolvesb d (ReservationAllocation.inventory a) = true).
    rewrite Hk. now apply Hres.
Qed.

(** The loop of the sweeper over reservations that are in the table with a
    status the release accepts. *)
Lemma sweep_loop (now : Z) (L : list StockReservation.t) (db : DB) :
  NoDup (map StockReservation.id (reservations db)) ->
  lines_resolve db = true ->
  NoDup (map StockReservation.id L) ->
  (forall r, In r L ->
     In r (reservations db)
     /\ StockReservation.status_in_reserved (StockReservation.status r) = true) ->
  exists db',
    for_each L (fun reservation =>
                  InventoryService.release_stock now (StockReservation.id reservation) ;;;
                  ret tt) db
    = (db', Returned tt)
    /\ (forall r, In r L ->
          reservation_status db' (StockReservation.id r) = Some StockReservation.released)
    /\ (forall k, ~ In k (map StockReservation.id L) ->
          get_by StockReservation.id k (reservations db')
          = get_by StockReservation.id k (reservations db)).
Proof.
  revert db. induction L as [|r L IH]; intros db ND Hres NDL HL; simpl.
  - exists db. split; [reflexivity|]. split; [intros r []|reflexivity].
  - destruct (HL r (or_introl eq_refl)) as [Hin Hst].
    inversion NDL as [|? ? Hnot NDL']; subst.
    pose proof (get_by_unique StockReservation.id _ r ND Hin) as Hrow.
    destruct (release_stock_runs now (StockReservation.id r) db r)
      as (db1 & Hrun & Hr1 & Hres1).
    { now apply find_reserved_unique. }
    { exact Hres. }
    destruct (IH db1) as (db2 & Hrun2 & Hdone & Hkeep).
    { rewrite Hr1. now rewrite (map_key_upsert StockReservation.id _ r). }
    { exact Hres1. }
    { exact NDL'. }
    { intros r' Hin'. destruct (HL r' (or_intror Hin')) as [Hin'' Hst'].
      split; [|exact Hst']. rewrite Hr1.
      apply In_upsert_other; [exact Hin''|].
      simpl. intros E. apply Hnot. rewrite <- E. now apply in_map. }
    exists db2. split; [|split].
    + unfold bind at 1 2. rewrite Hrun. exact Hrun2.
    + intros r' [<-|Hin'].
      * unfold reservation_status. rewrite (Hkeep _ Hnot), Hr1, get_by_upsert.
        simpl. now rewrite Z.eqb_refl.
      * now apply Hdone.
    + intros k Hk. simpl in Hk.
      rewrite Hkeep by tauto. rewrite Hr1, get_by_upsert. simpl.
      destruct (StockReservation.id r =? k) eqn:E; [|reflexivity].
      apply Z.eqb_eq in E. tauto.
Qed.

(** C8 as stated fails: when the release of reservation 52 raises, the
    pass ends with reservation 51 still [reserved]. *)
Lemma sweep_does_not_isolate_failure : ~ sweep_isolates_failure.
Proof.
  unfold sweep_isolates_failure. vm_compute. discriminate.
Qed.

Example sweep_failure_result :
  cleanup_with (Scenario.release_failing_on_52 2000) "inventory" 2000
    Scenario.db_two_expired
  = (Scenario.db_two_expired, Returned [log_error DatabaseError]).
Proof. vm_compute. reflexivity. Qed.

(** C8, amended. One pass over a ledger with unique reservation keys and
    resolvable allocation lines releases every reservation in status
    [reserved] or [partially_reserved] whose [expires_at] is before [now],
    and logs their number. Whatever the release operation is, when it raises
    on some reservation the pass is abandoned as a whole: the database is as
    before the pass, releases already made undone, and the one error is
    logged. *)
Theorem sweep_is_all_or_nothing :
  (forall (now : Z) (db : DB),
     NoDup (map StockReservation.id (reservations db)) ->
     lines_resolve db = true ->
     exists db',
       cleanup_expired_reservations "inventory" now db
       = (db', Returned
                 match filter (expired_reserved now) (reservations db) with
                 | [] => []
                 | l => [log_info (List.length l)]
                 end)
       /\ forall r, In r (reservations db) -> expired_reserved now r = true ->
            reservation_status db' (StockReservation.id r)
            = Some StockReservation.released)
  /\ (forall (release : Z -> M (bool * message)) (now : Z) (db d : DB) (e : exn),
        for_each (filter (expired_reserved now) (reservations db))
          (fun reservation => release (StockReservation.id reservation) ;;; ret tt) db
        = (d, Raised e) ->
        cleanup_with release "inventory" now db = (db, Returned [log_error e])).
Proof.
  split.
  - intros now db ND Hres.
    unfold cleanup_expired_reservations, cleanup_with.
    change (negb ("inventory" =? "inventory")%string) with false. cbv iota.
    unfold try_except, bind at 1, read at 1.
    destruct (filter (expired_reserved now) (reservations db)) as [|r0 L0] eqn:HL.
    + exists db. split; [reflexivity|].
      intros r Hin Hex. exfalso.
      assert (Hf : In r (filter (expired_reserved now) (reservations db)))
        by (apply filter_In; tauto).
      now rewrite HL in Hf.
    + destruct (sweep_loop now (r0 :: L0) db ND Hres) as (db' & Hrun & Hdone & _).
      { rewrite <- HL. now apply NoDup_map_filter. }
      { intros r Hin. rewrite <- HL in Hin. apply filter_In in Hin.
        destruct Hin as [Hin Hex]. split; [exact Hin|].
        unfold expired_reserved in Hex. apply andb_true_iff in Hex. tauto. }
      exists db'. split.
      * change (0 <? List.length (r0 :: L0))%nat with true. cbv iota.
        unfold atomic, bind at 1. rewrite Hrun. reflexivity.
      * intros r Hin Hex. apply Hdone. rewrite <- HL. apply filter_In. tauto.
  - intros release now db d e Hraise.
    unfold cleanup_with.
    change (negb ("inventory" =? "inventory")%string) with false. cbv iota.
    unfold try_except, bind at 1, read at 1.
    destruct (filter (expired_reserved now) (reservations db)) as [|r0 L0] eqn:HL.
    + simpl in Hraise. discriminate.
    + change (0 <? List.length (r0 :: L0))%nat with true. cbv iota.
      unfold atomic, bind at 1. rewrite Hraise. reflexivity.
Qed.

(** The pass over the two expired reservations, with the service's release
    and with the release that fails on reservation 52. *)
Lemma sweep_is_all_or_nothing_witness :
  (exists db',
     cleanup_expired_reservations "inventory" 2000 Scenario.db_two_expired
     = (db', Returned [log_info 2])
     /\ forall r, In r (reservations Scenario.db_two_expired) ->
          expired_reserved 2000 r = true ->
          reservation_status db' (StockReservation.id r)
          = Some StockReservation.released)
  /\ cleanup_with (Scenario.release_failing_on_52 2000) "inventory" 2000
       Scenario.db_two_expired
     = (Scenario.db_two_expired, Returned [log_error DatabaseError]).
Proof.
  destruct sweep_is_all_or_nothing as [Hall Hnone]. split.
  - apply (Hall 2000 Scenario.db_two_expired).
    + simpl. repeat constructor; simpl; intuition lia.
    + reflexivity.
  - apply (Hnone (Scenario.release_failing_on_52 2000) 2000 Scenario.db_two_expired
             (fst (for_each (filter (expired_reserved 2000)
                               (reservations Scenario.db_two_expired))
                     (fun reservation =>
                        Scenario.release_failing_on_52 2000
                          (StockReservation.id reservation) ;;; ret tt)
                     Scenario.db_two_expired))
             DatabaseError).
    vm_compute. reflexivity.
Defined.

(** * Further properties of the ledger *)

(** ** The lot methods and [Inventory.save] *)

(** X1. With a non-negative quantity, each of the three lot methods
    ([reserve_stock], [release_stock], [allocate_stock]) takes a lot that
    satisfies the lot invariant to one that does, whether it accepts or
    refuses. *)
Theorem lot_methods_keep_lot_invariant
        (self self' : Inventory.t) (q : Z) (ok : bool) (db db' : DB) :
  0 <= q ->
  lot_invariant self ->
  Inventory_reserve_stock self q db = (db', Returned (self', ok))
  \/ Inventory_release_stock self q db = (db', Returned (self', ok))
  \/ Inventory_allocate_stock self q db = (db', Returned (self', ok)) ->
  lot_invariant self'.
Proof.
  intros Hq Hinv [H|[H|H]].
  - exact (reserve_stock_keeps_invariant _ _ _ _ _ _ H Hq Hinv).
  - exact (release_stock_keeps_invariant _ _ _ _ _ _ H Hq Hinv).
  - exact (allocate_stock_keeps_invariant _ _ _ _ _ _ H Hq Hinv).
Qed.

(** Committing 4 of the 5 reserved units of a lot of 10. *)
Lemma lot_methods_keep_lot_invariant_witness :
  lot_invariant
    (Inventory.computed_fields
       (Inventory.set_reserved_quantity
          (Inventory.set_quantity (Scenario.lot 1 10 5 None 1) 6) 1)).
Proof.
  apply (lot_methods_keep_lot_invariant
           (Scenario.lot 1 10 5 None 1) _ 4 true Scenario.db_expired
           (fst (Inventory_allocate_stock (Scenario.lot 1 10 5 None 1) 4
                   Scenario.db_expired))).
  - lia.
  - unfold lot_invariant. simpl. lia.
  - right. right. vm_compute. reflexivity.
Defined.

(** X2. When [Inventory.save] returns, the product of the lot has, as its
    [stock_quantity], the sum of the on-hand quantities of its active lots
    as the lot table then stands. *)
Theorem save_brings_product_stock_up_to_date
        (self self' : Inventory.t) (db db' : DB) :
  Inventory_save self db = (db', Returned self') ->
  exists p,
    get_by Product.id (Inventory.product self) (products db') = Some p
    /\ Product.stock_quantity p
       = Sum Inventory.quantity
             (filter (active_of_product (Inventory.product self)) (inventories db')).
Proof.
  unfold Inventory_save, update_product_stock, get_product. run.
  destruct (get_by Product.id (Inventory.product self) (products db)) as [p|] eqn:Hp;
    simpl; intros H; inversion H; subst; clear H.
  eexists. split.
  - simpl. rewrite get_by_upsert. simpl.
    rewrite (get_by_key _ _ _ _ Hp), Z.eqb_refl. reflexivity.
  - reflexivity.
Qed.

(** Saving lot 2 of the two-lot ledger with 7 units on hand. *)
Lemma save_brings_product_stock_up_to_date_witness :
  exists p,
    get_by Product.id 1
      (products (fst (Inventory_save (Scenario.lot 2 7 3 None 2) Scenario.db_two_lots)))
    = Some p
    /\ Product.stock_quantity p
       = Sum Inventory.quantity
             (filter (active_of_product 1)
                (inventories
                   (fst (Inventory_save (Scenario.lot 2 7 3 None 2) Scenario.db_two_lots)))).
Proof.
  apply (save_brings_product_stock_up_to_date
           (Scenario.lot 2 7 3 None 2)
           (Inventory.computed_fields (Scenario.lot 2 7 3 None 2))
           Scenario.db_two_lots).
  vm_compute. reflexivity.
Defined.

(** ** Adjustments *)

(** A property of the database that every step of a loop keeps is kept by
    the loop, however it ends. *)
Lemma for_each_keeps {A : Type} (P : DB -> Prop) (body : A -> M unit)
      (l : list A) :
  (forall x db, P db -> P (fst (body x db))) ->
  forall db, P db -> P (fst (for_each l body db)).
Proof.
  intros Hbody. induction l as [|x l IH]; intros db HP; simpl.
  - exact HP.
  - unfold bind. pose proof (Hbody x db HP) as H1.
    destruct (body x db) as [d [[]|e]]; simpl in *.
    + now apply IH.
    + exact H1.
Qed.

Lemma upsert_rows {A : Type} (key : A -> Z) (x y : A) (l : list A) :
  In y (upsert key x l) -> y = x \/ In y l.
Proof.
  induction l as [|z l IH]; simpl.
  - intuition.
  - destruct (key z =? key x); simpl; intuition.
Qed.

Lemma adjusted_row_nonnegative (lot : Inventory.t) (item : AdjustmentItem.t) :
  0 <= Inventory.quantity
         (Inventory.computed_fields
            match AdjustmentItem.adjustment_reason item with
            | AdjustmentItem.damaged =>
                Inventory.set_status
                  (if Inventory.quantity lot + AdjustmentItem.quantity_change item <? 0
                   then Inventory.set_quantity
                          (Inventory.set_quantity lot
                             (Inventory.quantity lot + AdjustmentItem.quantity_change item)) 0
                   else Inventory.set_quantity lot
                          (Inventory.quantity lot + AdjustmentItem.quantity_change item))
                  Inventory.damaged
            | AdjustmentItem.expired =>
                Inventory.set_status
                  (if Inventory.quantity lot + AdjustmentItem.quantity_change item <? 0
                   then Inventory.set_quantity
                          (Inventory.set_quantity lot
                             (Inventory.quantity lot + AdjustmentItem.quantity_change item)) 0
                   else Inventory.set_quantity lot
                          (Inventory.quantity lot + AdjustmentItem.quantity_change item))
                  Inventory.expired
            | _ =>
                if Inventory.quantity lot + AdjustmentItem.quantity_change item <? 0
                then Inventory.set_quantity
                       (Inventory.set_quantity lot
                          (Inventory.quantity lot + AdjustmentItem.quantity_change item)) 0
                else Inventory.set_quantity lot
                       (Inventory.quantity lot + AdjustmentItem.quantity_change item)
            end).
Proof.
  destruct (Z.ltb_spec (Inventory.quantity lot + AdjustmentItem.quantity_change item) 0);
    destruct (AdjustmentItem.adjustment_reason item); simpl; lia.
Qed.

Lemma adjust_line_keeps_nonnegative (item : AdjustmentItem.t) (db : DB) :
  (forall i, In i (inventories db) -> 0 <= Inventory.quantity i) ->
  forall i, In i (inventories (fst (adjust_line item db))) -> 0 <= Inventory.quantity i.
Proof.
  intros Hdb. unfold adjust_line, get_inventory.
  unfold bind at 1 2. unfold read at 1.
  destruct (get_by Inventory.id (AdjustmentItem.inventory item) (inventories db))
    as [lot|]; simpl fetch; [|exact Hdb].
  unfold ret at 1. cbv beta iota zeta.
  unfold bind at 1.
  match goal with
  | |- context [Inventory_save ?row db] =>
      pose proof (Inventory_save_frame row db) as (Hi & _);
      pose proof (adjusted_row_nonnegative lot item) as Hrow;
      destruct (Inventory_save row db) as [d [s|e]]
  end; simpl in *; intros i Hin; rewrite Hi in Hin;
    apply upsert_rows in Hin; destruct Hin as [->|Hin]; auto.
Qed.

(** X3. Applying an adjustment never leaves a negative on-hand quantity:
    if no lot has one before, none has one after, whatever the status of
    the adjustment, its lines, and whether the call returns or raises. *)
Theorem adjustment_keeps_on_hand_nonnegative (adj : StockAdjustment.t) (db : DB) :
  (forall i, In i (inventories db) -> 0 <= Inventory.quantity i) ->
  forall i, In i (inventories (fst (StockAdjustment_apply_adjustment adj db))) ->
            0 <= Inventory.quantity i.
Proof.
  intros Hdb. unfold StockAdjustment_apply_adjustment.
  destruct (StockAdjustment.status adj); try exact Hdb.
  unfold bind at 1 2. unfold read at 1.
  pose proof (for_each_keeps
                (fun d => forall i, In i (inventories d) -> 0 <= Inventory.quantity i)
                adjust_line (items_of (StockAdjustment.id adj) db)
                adjust_line_keeps_nonnegative db Hdb) as H.
  destruct (for_each _ adjust_line db) as [d [[]|e]]; simpl in *; exact H.
Qed.

(** The adjustment of -5 on the lot of 3. *)
Lemma adjustment_keeps_on_hand_nonnegative_witness :
  Forall (fun i => 0 <= Inventory.quantity i)
         (inventories
            (fst (StockAdjustment_apply_adjustment Scenario.write_off
                    Scenario.db_over_adjust))).
Proof.
  apply Forall_forall.
  apply (adjustment_keeps_on_hand_nonnegative Scenario.write_off Scenario.db_over_adjust).
  intros i [<-|[]]. simpl. lia.
Defined.

(** X4. An adjustment is applied once: after [apply_adjustment] has
    returned [True] its row is [completed], and applying that row again
    returns [False] and writes nothing. *)
Theorem adjustment_applies_once (adj : StockAdjustment.t) (db db1 : DB) :
  StockAdjustment_apply_adjustment adj db = (db1, Returned true) ->
  exists adj',
    get_by StockAdjustment.id (StockAdjustment.id adj) (adjustments db1) = Some adj'
    /\ StockAdjustment.status adj' = StockAdjustment.completed
    /\ StockAdjustment_apply_adjustment adj' db1 = (db1, Returned false).
Proof.
  unfold StockAdjustment_apply_adjustment at 1.
  destruct (StockAdjustment.status adj); try discriminate.
  unfold bind at 1 2. unfold read at 1.
  destruct (for_each _ adjust_line db) as [d [[]|e]]; [|discriminate].
  run. intros H. inversion H; subst db1. clear H.
  eexists. split; [|split].
  - simpl. rewrite get_by_upsert. simpl. rewrite Z.eqb_refl. reflexivity.
  - reflexivity.
  - reflexivity.
Qed.

(** The write-off of the lot of 10, applied and applied again. *)
Lemma adjustment_applies_once_witness :
  exists adj',
    get_by StockAdjustment.id 7
      (adjustments
         (fst (StockAdjustment_apply_adjustment Scenario.write_off Scenario.db_write_off)))
    = Some adj'
    /\ StockAdjustment.status adj' = StockAdjustment.completed
    /\ StockAdjustment_apply_adjustment adj'
         (fst (StockAdjustment_apply_adjustment Scenario.write_off Scenario.db_write_off))
       = (fst (StockAdjustment_apply_adjustment Scenario.write_off Scenario.db_write_off),
          Returned false).
Proof.
  apply (adjustment_applies_once Scenario.write_off Scenario.db_write_off).
  vm_compute. reflexivity.
Defined.

(** ** The reservation service *)

(** X5. [reserve_stock] never reserves: on every input, and with it
    [check_product_availability], it raises [ImportError] and leaves the
    database as it was -- no lot is written and no reservation or
    allocation line is made. *)
Theorem reserve_stock_always_raises
        (new_id product_id quantity : Z)
        (order_id customer_id warehouse_id : option Z) (db : DB) :
  InventoryService.check_product_availability product_id quantity warehouse_id db
  = (db, Raised ImportError)
  /\ InventoryService.reserve_stock new_id product_id quantity
       order_id customer_id warehouse_id db
     = (db, Raised ImportError).
Proof.
  split; [apply check_product_availability_run|apply reserve_stock_run].
Qed.

(** Each step of the release loop keeps the on-hand quantity of every lot. *)
Lemma release_line_keeps_on_hand (j : Z) (a : ReservationAllocation.t) (db : DB) :
  option_map Inventory.quantity
    (get_by Inventory.id j (inventories (fst (InventoryService.release_line a db))))
  = option_map Inventory.quantity (get_by Inventory.id j (inventories db)).
Proof.
  unfold InventoryService.release_line, get_inventory.
  unfold bind at 1 2. unfold read at 1.
  destruct (get_by Inventory.id (ReservationAllocation.inventory a) (inventories db))
    as [lot|] eqn:Hlot; simpl fetch; [|reflexivity].
  unfold ret at 1. cbv beta iota zeta.
  unfold bind at 1. unfold Inventory_release_stock.
  destruct (Inventory.reserved_quantity lot >=? ReservationAllocation.quantity a);
    [|reflexivity].
  unfold bind at 1.
  match goal with
  | |- context [Inventory_save ?row db] =>
      pose proof (Inventory_save_frame row db) as (Hi & _);
      destruct (Inventory_save row db) as [d [s|e]]
  end; simpl in *; rewrite Hi, get_by_upsert; simpl;
    rewrite (get_by_key _ _ _ _ Hlot);
    (destruct (ReservationAllocation.inventory a =? j) eqn:E; [|reflexivity]);
    apply Z.eqb_eq in E; subst j; now rewrite Hlot.
Qed.

(** X6. Releasing a reservation never changes stock on hand: whatever the
    reservation, its lines and the outcome of the call, every lot has the
    on-hand quantity it had before, and no lot appears or disappears. *)
Theorem release_never_changes_on_hand (now k j : Z) (db : DB) :
  option_map Inventory.quantity
    (get_by Inventory.id j (inventories (fst (InventoryService.release_stock now k db))))
  = option_map Inventory.quantity (get_by Inventory.id j (inventories db)).
Proof.
  unfold InventoryService.release_stock, atomic.
  unfold bind at 1. unfold read at 1.
  destruct (InventoryService.get_reserved k db) as [r|]; [|reflexivity].
  unfold bind at 1.
  pose proof (for_each_keeps
                (fun d => option_map Inventory.quantity
                            (get_by Inventory.id j (inventories d))
                          = option_map Inventory.quantity
                              (get_by Inventory.id j (inventories db)))
                InventoryService.release_line
                (InventoryService.allocations_of (StockReservation.id r) db)) as H.
  specialize (H (fun a d Hd => eq_trans (release_line_keeps_on_hand j a d) Hd) db eq_refl).
  destruct (for_each _ InventoryService.release_line db) as [d [[]|e]]; simpl in *.
  - exact H.
  - reflexivity.
Qed.

(** The release loop over lines whose lots all refuse writes nothing. *)
Lemma release_lines_refused (lines : list ReservationAllocation.t) (db : DB) :
  (forall a, In a lines ->
     exists lot,
       get_by Inventory.id (ReservationAllocation.inventory a) (inventories db) = Some lot
       /\ Inventory.reserved_quantity lot < ReservationAllocation.quantity a) ->
  for_each lines InventoryService.release_line db = (db, Returned tt).
Proof.
  induction lines as [|a lines IH]; intros H; simpl; [reflexivity|].
  destruct (H a (or_introl eq_refl)) as (lot & Hlot & Hlt).
  unfold bind at 1. unfold InventoryService.release_line at 1, get_inventory.
  run. rewrite Hlot. simpl. unfold Inventory_release_stock.
  destruct (Z.geb_spec (Inventory.reserved_quantity lot) (ReservationAllocation.quantity a));
    [lia|].
  simpl. apply IH. intros a' Hin. apply H. now right.
Qed.

(** X7. [release_stock] drops the answer of the lots: when every line of
    the reservation asks its lot for more than the lot has reserved, no lot
    is written, and the call still returns success and marks the
    reservation [released]. *)
Theorem release_succeeds_though_lots_refuse
        (now k : Z) (db : DB) (r : StockReservation.t) :
  InventoryService.get_reserved k db = Some r ->
  (forall a, In a (InventoryService.allocations_of (StockReservation.id r) db) ->
     exists lot,
       get_by Inventory.id (ReservationAllocation.inventory a) (inventories db) = Some lot
       /\ Inventory.reserved_quantity lot < ReservationAllocation.quantity a) ->
  InventoryService.release_stock now k db
  = (with_reservations db
       (upsert StockReservation.id (StockReservation.mark_released r now)
          (reservations db)),
     Returned (true, msg_released)).
Proof.
  intros Hget Hlines. unfold InventoryService.release_stock, atomic.
  unfold bind at 1. unfold read at 1. rewrite Hget.
  unfold bind at 1. rewrite (release_lines_refused _ db Hlines). reflexivity.
Qed.

(** Reservation 60 and its line of 5 on a lot with 2 reserved. *)
Lemma release_succeeds_though_lots_refuse_witness :
  InventoryService.release_stock 9 60 Case.db_stale_line
  = (with_reservations Case.db_stale_line
       [StockReservation.mark_released
          (Scenario.reservation 60 5 0 StockReservation.reserved None) 9],
     Returned (true, msg_released)).
Proof.
  apply (release_succeeds_though_lots_refuse 9 60 Case.db_stale_line
           (Scenario.reservation 60 5 0 StockReservation.reserved None)).
  - reflexivity.
  - intros a [<-|[]]. exists (Scenario.lot 1 10 2 None 1). split; [reflexivity|simpl; lia].
Defined.

(** ** The allocation service *)

(** With unique keys, a reservation that has been released is no longer
    found by the guarded [get]. *)
Lemma released_is_not_found (now k : Z) (db db1 : DB) (m : message) :
  NoDup (map StockReservation.id (reservations db)) ->
  InventoryService.release_stock now k db = (db1, Returned (true, m)) ->
  InventoryService.get_reserved k db1 = None.
Proof.
  intros ND H1. unfold InventoryService.release_stock, atomic in H1.
  unfold bind at 1 in H1. unfold read at 1 in H1.
  destruct (InventoryService.get_reserved k db) as [r|] eqn:Hget; [|discriminate].
  unfold bind at 1 in H1.
  destruct (release_lines_frame
              (InventoryService.allocations_of (StockReservation.id r) db) db)
    as [Hres _].
  destruct (for_each _ InventoryService.release_line db) as [d [[]|e]];
    simpl in *; [|discriminate].
  inversion H1; subst db1 m. clear H1.
  unfold InventoryService.get_reserved in *. simpl reservations. rewrite Hres.
  change (fun r0 : StockReservation.t =>
            (StockReservation.id r0 =? k)
            && StockReservation.status_in_reserved (StockReservation.status r0))
    with (reserved_test k) in *.
  exact (find_reserved_after_release _ _ _ _ ND Hget).
Qed.

(** X8. A released reservation cannot be allocated: in a ledger with unique
    reservation keys, after [release_stock] has returned success,
    [allocate_stock] on the same reservation is refused (reservation not
    found) and writes nothing. *)
Theorem released_reservation_is_not_allocated
        (now now' k : Z) (db db1 : DB) (m : message) :
  NoDup (map StockReservation.id (reservations db)) ->
  InventoryService.release_stock now k db = (db1, Returned (true, m)) ->
  InventoryService.allocate_stock now' k db1 = (db1, Returned (false, msg_not_found)).
Proof.
  intros ND H. rewrite allocate_stock_run.
  now rewrite (released_is_not_found now k db db1 m ND H).
Qed.

(** Reservation 50, released at time 2000 and then sent to allocation. *)
Lemma released_reservation_is_not_allocated_witness :
  InventoryService.allocate_stock 2001 50
    (fst (InventoryService.release_stock 2000 50 Scenario.db_expired))
  = (fst (InventoryService.release_stock 2000 50 Scenario.db_expired),
     Returned (false, msg_not_found)).
Proof.
  apply (released_reservation_is_not_allocated 2000 2001 50 Scenario.db_expired _
           msg_released).
  - simpl. constructor; [intros []|constructor].
  - vm_compute. reflexivity.
Defined.

(** X9. [allocate_stock] never allocates and never writes. On every input
    the database is left as it was; the call returns [(False, reservation
    not found)] when no reservation of that key is in status [reserved] or
    [partially_reserved], and raises [NameError] otherwise, whatever the
    reservation's lines, quantities and expiry. *)
Theorem allocate_stock_never_writes (now k : Z) (db : DB) :
  fst (InventoryService.allocate_stock now k db) = db
  /\ snd (InventoryService.allocate_stock now k db)
     = if found (InventoryService.get_reserved k db)
       then Raised NameError
       else Returned (false, msg_not_found).
Proof.
  rewrite allocate_stock_run.
  destruct (InventoryService.get_reserved k db); split; reflexivity.
Qed.

(** ** Reserve, then allocate, on a lot *)

(** X10. On a lot, reserve followed by allocate is a deduction. For a lot
    that satisfies the lot invariant and whose product row exists, and a
    quantity within its available quantity, [reserve_stock] and then
    [allocate_stock] of that quantity both answer [True], and the lot ends
    with its on-hand and available quantities lowered by the quantity and
    its reserved quantity as before the reservation. *)
Theorem lot_reserve_then_allocate_deducts
        (self : Inventory.t) (q : Z) (db : DB) (p : Product.t) :
  lot_invariant self ->
  q <= Inventory.available_quantity self ->
  get_by Product.id (Inventory.product self) (products db) = Some p ->
  exists db1 db2 s1 s2,
    Inventory_reserve_stock self q db = (db1, Returned (s1, true))
    /\ Inventory_allocate_stock s1 q db1 = (db2, Returned (s2, true))
    /\ Inventory.quantity s2 = Inventory.quantity self - q
    /\ Inventory.reserved_quantity s2 = Inventory.reserved_quantity self
    /\ Inventory.available_quantity s2 = Inventory.available_quantity self - q
    /\ get_by Inventory.id (Inventory.id self) (inventories db2) = Some s2.
Proof.
  intros (Hr & Ha & Hn) Hq Hp.
  unfold Inventory_reserve_stock.
  destruct (Z.geb_spec (Inventory.available_quantity self) q) as [_|]; [|lia].
  set (row1 := Inventory.set_reserved_quantity self (Inventory.reserved_quantity self + q)).
  pose proof (Inventory_save_returns row1 db p Hp) as Hret1.
  pose proof (Inventory_save_has_product row1 db (Inventory.product self)) as Hhas.
  unfold bind at 1.
  destruct (Inventory_save row1 db) as [db1 o1] eqn:Hs1. simpl in Hret1, Hhas.
  subst o1. rewrite Hp in Hhas.
  destruct (get_by Product.id (Inventory.product self) (products db1)) as [p1|] eqn:Hp1;
    [|discriminate].
  exists db1. unfold ret at 1.
  unfold Inventory_allocate_stock.
  set (s1 := Inventory.computed_fields row1).
  assert (Hg : (Inventory.reserved_quantity s1 >=? q) && (Inventory.quantity s1 >=? q)
               = true).
  { apply andb_true_iff. split; apply Z.geb_le; subst s1 row1; simpl; lia. }
  set (row2 := Inventory.set_reserved_quantity
                 (Inventory.set_quantity s1 (Inventory.quantity s1 - q))
                 (Inventory.reserved_quantity s1 - q)).
  pose proof (Inventory_save_returns row2 db1 p1 Hp1) as Hret2.
  pose proof (Inventory_save_frame row2 db1) as (Hinv & _).
  destruct (Inventory_save row2 db1) as [db2 o2] eqn:Hs2. simpl in Hret2, Hinv.
  subst o2.
  exists db2, s1, (Inventory.computed_fields row2).
  split; [reflexivity|].
  split.
  { rewrite Hg. unfold bind at 1. fold row2. now rewrite Hs2. }
  subst row2 s1 row1. simpl.
  split; [reflexivity|]. split; [lia|]. split; [lia|].
  rewrite Hinv, get_by_upsert. simpl. now rewrite Z.eqb_refl.
Qed.

(** Lot 1 of 5 units, 3 of them reserved and allocated. *)
Lemma lot_reserve_then_allocate_deducts_witness :
  exists db1 db2 s1 s2,
    Inventory_reserve_stock (Scenario.lot 1 5 0 (Some 20240101) 1) 3
      (Scenario.db_fefo false) = (db1, Returned (s1, true))
    /\ Inventory_allocate_stock s1 3 db1 = (db2, Returned (s2, true))
    /\ Inventory.quantity s2 = 5 - 3
    /\ Inventory.reserved_quantity s2 = 0
    /\ Inventory.available_quantity s2 = 5 - 0 - 3
    /\ get_by Inventory.id 1 (inventories db2) = Some s2.
Proof.
  apply (lot_reserve_then_allocate_deducts (Scenario.lot 1 5 0 (Some 20240101) 1) 3
           (Scenario.db_fefo false) (Scenario.product false)).
  - unfold lot_invariant. simpl. lia.
  - simpl. lia.
  - reflexivity.
Defined.

(** ** More on the expiry sweeper *)

Lemma for_each_keeps_in {A : Type} (P : DB -> Prop) (body : A -> M unit)
      (l : list A) :
  (forall x, In x l -> forall db, P db -> P (fst (body x db))) ->
  forall db, P db -> P (fst (for_each l body db)).
Proof.
  induction l as [|x l IH]; intros Hbody db HP; simpl.
  - exact HP.
  - unfold bind. pose proof (Hbody x (or_introl eq_refl) db HP) as H1.
    destruct (body x db) as [d [[]|e]]; simpl in *.
    + apply IH; [|exact H1]. intros y Hy. apply Hbody. now right.
    + exact H1.
Qed.

Lemma step_then_ret {A : Type} (c : M A) (db : DB) :
  fst ((c ;;; ret tt) db) = fst (c db).
Proof.
  unfold bind. destruct (c db) as [d [v|e]]; reflexivity.
Qed.

(** A release writes no reservation row but the one of its key. *)
Lemma release_stock_other_rows (now k j : Z) (db : DB) :
  j <> k ->
  get_by StockReservation.id j
    (reservations (fst (InventoryService.release_stock now k db)))
  = get_by StockReservation.id j (reservations db).
Proof.
  intros Hjk. unfold InventoryService.release_stock, atomic.
  unfold bind at 1. unfold read at 1.
  destruct (InventoryService.get_reserved k db) as [r|] eqn:Hget; [|reflexivity].
  assert (Hid : StockReservation.id r = k).
  { unfold InventoryService.get_reserved in Hget. apply find_some in Hget.
    destruct Hget as [_ Ht]. apply andb_true_iff in Ht. destruct Ht as [Ht _].
    now apply Z.eqb_eq in Ht. }
  unfold bind at 1.
  destruct (release_lines_frame
              (InventoryService.allocations_of (StockReservation.id r) db) db) as [Hr _].
  destruct (for_each _ InventoryService.release_line db) as [d [[]|e]];
    simpl in *; [|reflexivity].
  rewrite Hr, get_by_upsert. simpl. rewrite Hid.
  destruct (k =? j) eqn:E; [|reflexivity].
  apply Z.eqb_eq in E. congruence.
Qed.

(** X11. A pass of the sweeper writes no reservation row but those of the
    reservations it selects: a reservation that is not in status [reserved]
    or [partially_reserved], has no [expires_at] or has not expired is found
    afterwards as it was before, whoever the sender is and whether the pass
    succeeds or is abandoned. *)
Theorem sweep_leaves_other_reservations (sender_name : string) (now j : Z) (db : DB) :
  ~ In j (map StockReservation.id (filter (expired_reserved now) (reservations db))) ->
  get_by StockReservation.id j
    (reservations (fst (cleanup_expired_reservations sender_name now db)))
  = get_by StockReservation.id j (reservations db).
Proof.
  intros Hj. unfold cleanup_expired_reservations, cleanup_with.
  destruct (negb (sender_name =? "inventory")%string); [reflexivity|].
  unfold try_except, bind at 1, read at 1.
  destruct (0 <? List.length (filter (expired_reserved now) (reservations db)))%nat;
    [|reflexivity].
  unfold atomic, bind at 1.
  assert (H : get_by StockReservation.id j
                (reservations
                   (fst (for_each (filter (expired_reserved now) (reservations db))
                           (fun reservation =>
                              InventoryService.release_stock now
                                (StockReservation.id reservation) ;;;
                              ret tt) db)))
              = get_by StockReservation.id j (reservations db)).
  { apply (for_each_keeps_in
             (fun d => get_by StockReservation.id j (reservations d)
                       = get_by StockReservation.id j (reservations db)));
      [|reflexivity].
    intros x Hx d Hd. rewrite step_then_ret, release_stock_other_rows; [exact Hd|].
    intros E. apply Hj. rewrite E. now apply in_map. }
  destruct (for_each _ _ db) as [d [[]|e]]; simpl in *; [exact H|reflexivity].
Qed.

(** A pass at time 2000 over an expired and a running reservation. *)
Lemma sweep_leaves_other_reservations_witness :
  get_by StockReservation.id 53
    (reservations (fst (cleanup_expired_reservations "inventory" 2000
                          Case2.db_one_live)))
  = get_by StockReservation.id 53 (reservations Case2.db_one_live).
Proof.
  apply (sweep_leaves_other_reservations "inventory" 2000 53 Case2.db_one_live).
  simpl. intuition lia.
Defined.

(** The loop of the sweeper keeps the keys of the reservation table. *)
Lemma sweep_loop_keys (now : Z) (L : list StockReservation.t) (db : DB) :
  NoDup (map StockReservation.id (reservations db)) ->
  lines_resolve db = true ->
  NoDup (map StockReservation.id L) ->
  (forall r, In r L ->
     In r (reservations db)
     /\ StockReservation.status_in_reserved (StockReservation.status r) = true) ->
  map StockReservation.id
      (reservations
         (fst (for_each L (fun reservation =>
                             InventoryService.release_stock now
                               (StockReservation.id reservation) ;;;
                             ret tt) db)))
  = map StockReservation.id (reservations db).
Proof.
  revert db. induction L as [|r L IH]; intros db ND Hres NDL HL.
  - reflexivity.
  - destruct (HL r (or_introl eq_refl)) as [Hin Hst].
    inversion NDL as [|? ? Hnot NDL']; subst.
    pose proof (get_by_unique StockReservation.id _ r ND Hin) as Hrow.
    destruct (release_stock_runs now (StockReservation.id r) db r)
      as (db1 & Hrun & Hr1 & Hres1).
    { now apply find_reserved_unique. }
    { exact Hres. }
    assert (Hstep :
      for_each (r :: L)
        (fun reservation =>
           InventoryService.release_stock now (StockReservation.id reservation) ;;;
           ret tt) db
      = for_each L
          (fun reservation =>
             InventoryService.release_stock now (StockReservation.id reservation) ;;;
             ret tt) db1).
    { simpl. unfold bind at 1 2. rewrite Hrun. reflexivity. }
    rewrite Hstep.
    assert (Hkeys : map StockReservation.id (reservations db1)
                    = map StockReservation.id (reservations db)).
    { rewrite Hr1. now rewrite (map_key_upsert StockReservation.id _ r). }
    rewrite IH.
    + exact Hkeys.
    + now rewrite Hkeys.
    + exact Hres1.
    + exact NDL'.
    + intros r' Hin'. destruct (HL r' (or_intror Hin')) as [Hin'' Hst'].
      split; [|exact Hst']. rewrite Hr1.
      apply In_upsert_other; [exact Hin''|].
      simpl. intros E. apply Hnot. rewrite <- E. now apply in_map.
Qed.

(** X12. A second pass is a no-op: after a pass over a ledger with unique
    reservation keys and resolvable allocation lines, a pass at the same
    time selects no reservation, writes nothing and logs nothing. *)
Theorem second_sweep_is_noop (now : Z) (db : DB) :
  NoDup (map StockReservation.id (reservations db)) ->
  lines_resolve db = true ->
  cleanup_expired_reservations "inventory" now
    (fst (cleanup_expired_reservations "inventory" now db))
  = (fst (cleanup_expired_reservations "inventory" now db), Returned []).
Proof.
  intros ND Hres.
  set (L := filter (expired_reserved now) (reservations db)).
  assert (HL : forall r, In r L ->
                 In r (reservations db)
                 /\ StockReservation.status_in_reserved (StockReservation.status r) = true).
  { intros r Hin. apply filter_In in Hin. destruct Hin as [Hin Hex].
    split; [exact Hin|]. unfold expired_reserved in Hex.
    apply andb_true_iff in Hex. tauto. }
  assert (NDL : NoDup (map StockReservation.id L)) by now apply NoDup_map_filter.
  destruct (sweep_loop now L db ND Hres NDL HL) as (db' & Hrun & Hdone & Hkeep).
  pose proof (sweep_loop_keys now L db ND Hres NDL HL) as Hkeys.
  rewrite Hrun in Hkeys. simpl in Hkeys.
  assert (Hfirst : fst (cleanup_expired_reservations "inventory" now db)
                   = match L with [] => db | _ => db' end).
  { unfold cleanup_expired_reservations, cleanup_with.
    change (negb ("inventory" =? "inventory")%string) with false. cbv iota.
    unfold try_except, bind at 1, read at 1. fold L.
    destruct L as [|r0 L0] eqn:EL; [reflexivity|].
    change (0 <? List.length (r0 :: L0))%nat with true. cbv iota.
    unfold atomic, bind at 1. rewrite Hrun. reflexivity. }
  assert (Hclean : forall d,
            filter (expired_reserved now) (reservations d) = [] ->
            cleanup_expired_reservations "inventory" now d = (d, Returned [])).
  { intros d Hd. unfold cleanup_expired_reservations, cleanup_with.
    change (negb ("inventory" =? "inventory")%string) with false. cbv iota.
    unfold try_except, bind at 1, read at 1. now rewrite Hd. }
  rewrite Hfirst. apply Hclean.
  destruct L as [|r0 L0] eqn:EL; [exact EL|].
  rewrite <- EL in *. clear EL r0 L0.
  assert (Hnone : forall r', In r' (reservations db') -> expired_reserved now r' = false).
  { intros r' Hin'.
    assert (ND' : NoDup (map StockReservation.id (reservations db')))
      by now rewrite Hkeys.
    pose proof (get_by_unique StockReservation.id _ r' ND' Hin') as Hrow.
    destruct (in_dec Z.eq_dec (StockReservation.id r') (map StockReservation.id L))
      as [Hsel|Hsel].
    - apply in_map_iff in Hsel. destruct Hsel as (r & Hid & Hr).
      pose proof (Hdone r Hr) as Hs. unfold reservation_status in Hs.
      rewrite Hid, Hrow in Hs. inversion Hs as [Hs'].
      unfold expired_reserved. now rewrite Hs'.
    - rewrite (Hkeep _ Hsel) in Hrow.
      destruct (expired_reserved now r') eqn:Hex; [|reflexivity].
      exfalso. apply Hsel. apply in_map. apply filter_In. split; [|exact Hex].
      unfold get_by in Hrow. now apply find_some in Hrow. }
  clear - Hnone. induction (reservations db') as [|y l IH]; simpl; [reflexivity|].
  rewrite (Hnone y (or_introl eq_refl)). apply IH.
  intros r' Hr'. apply Hnone. now right.
Qed.

(** Two passes over the two expired reservations. *)
Lemma second_sweep_is_noop_witness :
  cleanup_expired_reservations "inventory" 2000
    (fst (cleanup_expired_reservations "inventory" 2000 Scenario.db_two_expired))
  = (fst (cleanup_expired_reservations "inventory" 2000 Scenario.db_two_expired),
     Returned []).
Proof.
  apply (second_sweep_is_noop 2000 Scenario.db_two_expired).
  - simpl. repeat constructor; simpl; intuition lia.
  - reflexivity.
Defined.

(** ** More on warehouse capacity *)

Section WarehouseRoundTrip.
Local Open Scope Q_scope.


End WarehouseRoundTrip.

(** ** Storage locations *)

Section LocationOccupancy.
Local Open Scope Q_scope.

Lemma Qminus_le_0 (a b : Q) : a - b <= 0 <-> a <= b.
Proof.
  split; intros H.
  - apply Qle_minus_iff. apply Qle_minus_iff in H.
    setoid_replace (b + - a) with (0 + - (a - b)) by ring. exact H.
  - apply Qle_minus_iff. apply Qle_minus_iff in H.
    setoid_replace (0 + - (a - b)) with (b + - a) by ring. exact H.
Qed.

(** X14. On the object that [update_occupancy] leaves, whatever the action
    and the amounts, [is_full] is set exactly when the object has no volume
    or no weight left: [available_volume <= 0] or [available_weight <= 0].
    (The copy that [save] stores is rounded to two decimal places and can
    differ in the last place.) *)
Theorem is_full_tracks_availability
        (self : StorageLocation.t) (volume weight : Q) (action : string) :
  StorageLocation.is_full (StorageLocation.update_occupancy self volume weight action)
  = true
  <-> StorageLocation.available_volume
        (StorageLocation.update_occupancy self volume weight action) <= 0
      \/ StorageLocation.available_weight
           (StorageLocation.update_occupancy self volume weight action) <= 0.
Proof.
  unfold StorageLocation.available_volume, StorageLocation.available_weight.
  rewrite !Qminus_le_0.
  unfold StorageLocation.update_occupancy. simpl.
  rewrite orb_true_iff, !Qle_bool_iff. reflexivity.
Qed.

End LocationOccupancy.

(** ** Expiry of a lot *)

Lemma upsert_rows_unique {A : Type} (key : A -> Z) (x c : A) (l : list A) :
  NoDup (map key l) ->
  In c (upsert key x l) -> c = x \/ (In c l /\ key c <> key x).
Proof.
  induction l as [|y l IH]; simpl; intros ND H.
  - destruct H as [<-|[]]. now left.
  - inversion ND as [|? ? Hnot ND']; subst.
    destruct (key y =? key x) eqn:E.
    + apply Z.eqb_eq in E. destruct H as [<-|H]; [now left|].
      right. split; [now right|]. intros Hc. apply Hnot. rewrite E, <- Hc.
      now apply in_map.
    + apply Z.eqb_neq in E. destruct H as [<-|H].
      * right. split; [now left|exact E].
      * destruct (IH ND' H) as [->|[Hin Hne]]; [now left|].
        right. split; [now right|exact Hne].
Qed.

Lemma candidate_is_active (db : DB) (p q : Z) (w : option Z) (c : Inventory.t) :
  In c (InventoryService.candidate_lots db p q w) ->
  In c (inventories db) /\ Inventory.status c = Inventory.active.
Proof.
  unfold InventoryService.candidate_lots. intros H.
  assert (H' : In c (filter (fun i => active_of_product p i
                                      && (Inventory.available_quantity i >=? q))
                            (inventories db))).
  { destruct w; [apply filter_In in H; tauto|exact H]. }
  apply filter_In in H'. destruct H' as [Hin Ht].
  apply andb_true_iff in Ht. destruct Ht as [Ha _].
  unfold active_of_product in Ha. apply andb_true_iff in Ha. destruct Ha as [_ Hs].
  split; [exact Hin|]. now destruct (Inventory.status c).
Qed.

(** X16. [check_expiry] answers [True] only for a lot whose expiry date is
    before today; it then keeps the lot's on-hand and reserved quantities,
    and in a table with unique keys the lot is no longer a candidate of any
    reservation request. *)
Theorem expired_lot_leaves_the_candidates
        (today : Z) (lot lot' : Inventory.t) (db db' : DB) :
  NoDup (map Inventory.id (inventories db)) ->
  Inventory_check_expiry today lot db = (db', Returned (lot', true)) ->
  (exists e, Inventory.expiry_date lot = Some e /\ e < today)
  /\ Inventory.quantity lot' = Inventory.quantity lot
  /\ Inventory.reserved_quantity lot' = Inventory.reserved_quantity lot
  /\ forall p q w c,
       In c (InventoryService.candidate_lots db' p q w) ->
       Inventory.id c <> Inventory.id lot.
Proof.
  intros ND H. unfold Inventory_check_expiry in H.
  destruct (Inventory.expiry_date lot) as [e|] eqn:He; [|discriminate].
  destruct (Z.gtb_spec today e) as [Hlt|]; [|discriminate].
  unfold bind in H.
  destruct (Inventory_save_frame (Inventory.set_status lot Inventory.expired) db)
    as (Hi & _).
  destruct (Inventory_save (Inventory.set_status lot Inventory.expired) db)
    as [d [s|x]] eqn:Hs; [|discriminate].
  apply Inventory_save_value in Hs. simpl in Hi. inversion H; subst. clear H.
  split; [exists e; split; [reflexivity|lia]|].
  split; [reflexivity|]. split; [reflexivity|].
  intros p q w c Hc. apply candidate_is_active in Hc. destruct Hc as [Hin Hact].
  rewrite Hi in Hin. apply upsert_rows_unique in Hin; [|exact ND].
  destruct Hin as [->|[_ Hne]]; [discriminate Hact|exact Hne].
Qed.

(** Lot 1 expired on 2024-01-01 and is checked on 2024-03-01. *)
Lemma expired_lot_leaves_the_candidates_witness :
  (exists e, Inventory.expiry_date (Scenario.lot 1 5 2 (Some 20240101) 1) = Some e
             /\ e < 20240301)
  /\ Inventory.quantity
       (Inventory.computed_fields
          (Inventory.set_status (Scenario.lot 1 5 2 (Some 20240101) 1) Inventory.expired))
     = 5
  /\ Inventory.reserved_quantity
       (Inventory.computed_fields
          (Inventory.set_status (Scenario.lot 1 5 2 (Some 20240101) 1) Inventory.expired))
     = 2
  /\ forall p q w c,
       In c (InventoryService.candidate_lots
               (fst (Inventory_check_expiry 20240301
                       (Scenario.lot 1 5 2 (Some 20240101) 1) Case2.db_past_expiry))
               p q w) ->
       Inventory.id c <> 1.
Proof.
  apply (expired_lot_leaves_the_candidates 20240301
           (Scenario.lot 1 5 2 (Some 20240101) 1) _ Case2.db_past_expiry).
  - simpl. repeat constructor; simpl; intuition lia.
  - vm_compute. reflexivity.
Defined.

(** ** Reservations that can be allocated and reservations that are swept *)

(** X17. The sweeper's filter and [can_allocate] agree: at any time, a
    reservation is selected by the sweeper exactly when its status is
    [reserved] or [partially_reserved] and [can_allocate] is false. *)
Theorem sweeper_selects_what_cannot_be_allocated (now : Z) (r : StockReservation.t) :
  expired_reserved now r
  = StockReservation.status_in_reserved (StockReservation.status r)
    && negb (StockReservation.can_allocate r now).
Proof.
  unfold expired_reserved, StockReservation.can_allocate, StockReservation.is_expired.
  destruct (StockReservation.status_in_reserved (StockReservation.status r));
    [|reflexivity].
  destruct (StockReservation.expires_at r) as [e|]; simpl; [|reflexivity].
  rewrite negb_involutive. now rewrite Z.gtb_ltb.
Qed.

(** ** Transfer items *)

(** X18. A transfer item reserves stock at most once. When
    [allocate_from_inventory] answers [True], the item had no lot, it is now
    [picked] and tied to the first active lot of its product in the source
    warehouse, on which its whole quantity has been reserved; calling the
    method again on the item answers [False] and writes nothing. When it
    answers [False], nothing was written. *)
Theorem transfer_item_reserves_once
        (self self' : TransferItem.t) (ok : bool) (db db' : DB) :
  TransferItem_allocate_from_inventory self db = (db', Returned (self', ok)) ->
  if ok then
    TransferItem.inventory self = None
    /\ TransferItem.status self' = TransferItem.picked
    /\ (exists lot rest,
          source_lots self db = lot :: rest
          /\ TransferItem.inventory self' = Some (Inventory.id lot)
          /\ inventories db'
             = upsert Inventory.id (reserved_row lot (TransferItem.quantity self))
                      (inventories db))
    /\ TransferItem_allocate_from_inventory self' db' = (db', Returned (self', false))
  else db' = db.
Proof.
  unfold TransferItem_allocate_from_inventory at 1.
  destruct (TransferItem.inventory self) eqn:Hnone.
  { intros H. inversion H; subst. reflexivity. }
  unfold bind at 1. unfold read at 1.
  destruct (source_lots self db) as [|lot rest] eqn:Hlots.
  { intros H. inversion H; subst. reflexivity. }
  destruct (Inventory.available_quantity lot >=? TransferItem.quantity self) eqn:Hav.
  2: { intros H. inversion H; subst. reflexivity. }
  cbv zeta. simpl TransferItem.quantity.
  unfold bind at 1. unfold Inventory_reserve_stock. rewrite Hav.
  unfold bind at 1.
  destruct (Inventory_save_frame
              (Inventory.set_reserved_quantity lot
                 (Inventory.reserved_quantity lot + TransferItem.quantity self)) db)
    as (Hi & _).
  destruct (Inventory_save _ db) as [d [s|e]] eqn:Hs; [|discriminate].
  simpl. intros H. inversion H; subst. clear H.
  split; [reflexivity|]. split; [reflexivity|]. split.
  - exists lot, rest. repeat split. exact Hi.
  - reflexivity.
Qed.

(** The item of 4 units on the lots of 5 and 10. *)
Lemma transfer_item_reserves_once_witness :
  TransferItem.inventory Case2.transfer_item = None
  /\ TransferItem.status
       (TransferItem.save
          (TransferItem.set_status
             (TransferItem.set_inventory Case2.transfer_item (Some 1))
             TransferItem.picked))
     = TransferItem.picked
  /\ (exists lot rest,
        source_lots Case2.transfer_item (Scenario.db_fefo false) = lot :: rest
        /\ TransferItem.inventory
             (TransferItem.save
                (TransferItem.set_status
                   (TransferItem.set_inventory Case2.transfer_item (Some 1))
                   TransferItem.picked))
           = Some (Inventory.id lot)
        /\ inventories
             (fst (TransferItem_allocate_from_inventory Case2.transfer_item
                     (Scenario.db_fefo false)))
           = upsert Inventory.id (reserved_row lot 4)
                    (inventories (Scenario.db_fefo false)))
  /\ TransferItem_allocate_from_inventory
       (TransferItem.save
          (TransferItem.set_status
             (TransferItem.set_inventory Case2.transfer_item (Some 1))
             TransferItem.picked))
       (fst (TransferItem_allocate_from_inventory Case2.transfer_item
               (Scenario.db_fefo false)))
     = (fst (TransferItem_allocate_from_inventory Case2.transfer_item
               (Scenario.db_fefo false)),
        Returned
          (TransferItem.save
             (TransferItem.set_status
                (TransferItem.set_inventory Case2.transfer_item (Some 1))
                TransferItem.picked),
           false)).
Proof.
  apply (transfer_item_reserves_once Case2.transfer_item _ true
           (Scenario.db_fefo false)
           (fst (TransferItem_allocate_from_inventory Case2.transfer_item
                   (Scenario.db_fefo false)))).
  vm_compute. reflexivity.
Defined.

(** ** Picking *)

Lemma before_irreflexive (nf : bool) (a : Inventory.t) : before nf a a = false.
Proof.
  unfold before, expiry_before, expiry_same.
  destruct (Inventory.expiry_date a); simpl;
    rewrite ?Z.ltb_irrefl, ?andb_false_r; reflexivity.
Qed.

Lemma before_asymmetric (nf : bool) (a b : Inventory.t) :
  before nf a b = true -> before nf b a = false.
Proof.
  unfold before, expiry_before, expiry_same.
  destruct (Inventory.expiry_date a) as [x|], (Inventory.expiry_date b) as [y|];
    destruct nf; simpl; intros H; try discriminate; try reflexivity;
    repeat match goal with
           | |- context [?u <? ?v] => destruct (Z.ltb_spec u v)
           | |- context [?u =? ?v] => destruct (Z.eqb_spec u v)
           | H : context [?u <? ?v] |- _ => destruct (Z.ltb_spec u v)
           | H : context [?u =? ?v] |- _ => destruct (Z.eqb_spec u v)
           end; simpl in *; try discriminate; try reflexivity; try lia.
Qed.

Lemma not_before_transitive (nf : bool) (a b c : Inventory.t) :
  before nf a b = false -> before nf b c = false -> before nf a c = false.
Proof.
  unfold before, expiry_before, expiry_same.
  destruct (Inventory.expiry_date a) as [x|], (Inventory.expiry_date b) as [y|],
           (Inventory.expiry_date c) as [z|];
    destruct nf; simpl; intros H1 H2; try discriminate; try reflexivity;
    repeat match goal with
           | |- context [?u <? ?v] => destruct (Z.ltb_spec u v)
           | |- context [?u =? ?v] => destruct (Z.eqb_spec u v)
           | H : context [?u <? ?v] |- _ => destruct (Z.ltb_spec u v)
           | H : context [?u =? ?v] |- _ => destruct (Z.eqb_spec u v)
           end; simpl in *; try discriminate; try reflexivity; try lia.
Qed.

Lemma first_by_none (lt : Inventory.t -> Inventory.t -> bool) (l : list Inventory.t) :
  first_by lt l = None -> l = [].
Proof.
  destruct l as [|x l]; [reflexivity|]. simpl.
  destruct (first_by lt l) as [y|]; [destruct (lt y x)|]; discriminate.
Qed.

Lemma first_by_least (nf : bool) (l : list Inventory.t) (m : Inventory.t) :
  first_by (before nf) l = Some m ->
  In m l /\ forall c, In c l -> before nf c m = false.
Proof.
  revert m. induction l as [|x l IH]; simpl; intros m H; [discriminate|].
  destruct (first_by (before nf) l) as [y|] eqn:Hy.
  - destruct (IH y eq_refl) as [Hin Hleast].
    destruct (before nf y x) eqn:Hyx; inversion H; subst; clear H.
    + split; [now right|]. intros c [<-|Hc]; [now apply before_asymmetric|auto].
    + split; [now left|]. intros c [<-|Hc]; [apply before_irreflexive|].
      apply not_before_transitive with (b := y); auto.
  - inversion H; subst. apply first_by_none in Hy. subst l.
    split; [now left|]. intros c [<-|[]]. apply before_irreflexive.
Qed.

(** X19. Picking is first-expiry-first-out. [find_best_inventory] answers
    with an active lot of the product in the warehouse that holds the whole
    quantity, and no such lot sorts before it by expiry date and then
    creation date; it answers nothing only when there is no such lot. *)
Theorem picking_takes_the_earliest_expiry
        (nulls_first : bool) (db : DB) (warehouse product quantity : Z) :
  match find_best_inventory nulls_first db warehouse product quantity with
  | Some lot =>
      In lot (inventories db)
      /\ Inventory.product lot = product
      /\ Inventory.warehouse lot = warehouse
      /\ Inventory.status lot = Inventory.active
      /\ quantity <= Inventory.available_quantity lot
      /\ forall c, In c (pickable_lots db warehouse product quantity) ->
                   before nulls_first c lot = false
  | None => pickable_lots db warehouse product quantity = []
  end.
Proof.
  unfold find_best_inventory.
  destruct (first_by (before nulls_first) (pickable_lots db warehouse product quantity))
    as [lot|] eqn:H.
  - destruct (first_by_least _ _ _ H) as [Hin Hleast].
    unfold pickable_lots in Hin. apply filter_In in Hin. destruct Hin as [Hin Ht].
    repeat (apply andb_true_iff in Ht; destruct Ht as [Ht ?]).
    repeat split; auto.
    + now apply Z.eqb_eq.
    + now apply Z.eqb_eq.
    + now destruct (Inventory.status lot).
    + now apply Z.geb_le.
  - now apply first_by_none in H.
Qed.

(** On the FEFO example with the later lot listed first, 3 units are picked
    from the lot that expires first, where the query of the reservation
    path lists the lots in table order. *)
Example picking_and_reserving_differ :
  option_map Inventory.id (find_best_inventory false Scenario.db_fefo_swapped 1 1 3)
  = Some 1
  /\ map Inventory.id (InventoryService.candidate_lots Scenario.db_fefo_swapped 1 3 None)
     = [2; 1].
Proof. vm_compute. split; reflexivity. Qed.

(** ** Shipping an order item *)

Lemma ship_quantity_value (self self' : OrderItem.t) (q : Z) (ok : bool)
      (db db' : DB) :
  OrderItem_ship_quantity self q db = (db', Returned (self', ok)) ->
  if ok then
    q <= OrderItem.quantity self - OrderItem.quantity_shipped self
    /\ self' = OrderItem.save
                 (OrderItem.set_quantity_shipped self
                    (OrderItem.quantity_shipped self + q))
  else
    OrderItem.quantity self - OrderItem.quantity_shipped self < q
    /\ self' = self /\ db' = db.
Proof.
  unfold OrderItem_ship_quantity.
  destruct (Z.leb_spec q (OrderItem.quantity self - OrderItem.quantity_shipped self))
    as [Hle|Hgt].
  - intros H. unfold bind at 1 in H.
    destruct ((match OrderItem.allocated_inventory
                       (OrderItem.set_quantity_shipped self
                          (OrderItem.quantity_shipped self + q)) with
               | Some k =>
                   inventory <- get_inventory k ;;
                   Inventory_allocate_stock inventory q ;;;
                   ret tt
               | None => ret tt
               end) db) as [d [[]|e]]; [|discriminate].
    inversion H; subst. split; [exact Hle|reflexivity].
  - intros H. inversion H; subst. repeat split. exact Hgt.
Qed.

(** X20. [ship_quantity] never ships more than was ordered: for a
    non-negative quantity and an item with [0 <= quantity_shipped <=
    quantity], the item after the call has the same bounds; the call is
    accepted exactly when the quantity fits the unshipped remainder, adds it
    to [quantity_shipped] then, and changes nothing when it is refused. *)
Theorem ship_quantity_stays_within_order
        (self self' : OrderItem.t) (q : Z) (ok : bool) (db db' : DB) :
  0 <= OrderItem.quantity_shipped self <= OrderItem.quantity self ->
  0 <= q ->
  OrderItem_ship_quantity self q db = (db', Returned (self', ok)) ->
  0 <= OrderItem.quantity_shipped self' <= OrderItem.quantity self'
  /\ OrderItem.quantity self' = OrderItem.quantity self
  /\ OrderItem.quantity_shipped self'
     = OrderItem.quantity_shipped self + (if ok then q else 0)
  /\ (ok = true <-> q <= OrderItem.quantity self - OrderItem.quantity_shipped self)
  /\ (ok = false -> db' = db).
Proof.
  intros Hb Hq H. apply ship_quantity_value in H. destruct ok.
  - destruct H as [Hle ->]. simpl.
    repeat split; intros; try lia; try discriminate; auto.
  - destruct H as (Hgt & -> & ->).
    repeat split; intros; try lia; try discriminate; auto.
Qed.

(** 3 more units of the order item of 5 with 2 shipped. *)
Lemma ship_quantity_stays_within_order_witness :
  0 <= OrderItem.quantity_shipped
         (OrderItem.save (OrderItem.set_quantity_shipped Case2.order_item 5))
    <= OrderItem.quantity
         (OrderItem.save (OrderItem.set_quantity_shipped Case2.order_item 5))
  /\ OrderItem.quantity
       (OrderItem.save (OrderItem.set_quantity_shipped Case2.order_item 5))
     = OrderItem.quantity Case2.order_item
  /\ OrderItem.quantity_shipped
       (OrderItem.save (OrderItem.set_quantity_shipped Case2.order_item 5))
     = OrderItem.quantity_shipped Case2.order_item + 3
  /\ (true = true
      <-> 3 <= OrderItem.quantity Case2.order_item
               - OrderItem.quantity_shipped Case2.order_item)
  /\ (true = false ->
      fst (OrderItem_ship_quantity Case2.order_item 3 Scenario.db_expired)
      = Scenario.db_expired).
Proof.
  apply (ship_quantity_stays_within_order Case2.order_item _ 3 true
           Scenario.db_expired
           (fst (OrderItem_ship_quantity Case2.order_item 3 Scenario.db_expired))).
  - simpl. lia.
  - lia.
  - vm_compute. reflexivity.
Defined.

(** X21. [ship_quantity] drops the answer of the lot: when the lot the item
    is served from has less reserved, or less on hand, than the quantity,
    a quantity that fits the order is still counted as shipped and the call
    answers [True], while no lot is written. *)
Theorem ship_quantity_counts_though_lot_refuses
        (self : OrderItem.t) (q k : Z) (lot : Inventory.t) (db : DB) :
  OrderItem.allocated_inventory self = Some k ->
  get_by Inventory.id k (inventories db) = Some lot ->
  Inventory.reserved_quantity lot < q \/ Inventory.quantity lot < q ->
  q <= OrderItem.quantity self - OrderItem.quantity_shipped self ->
  OrderItem_ship_quantity self q db
  = (db, Returned
           (OrderItem.save
              (OrderItem.set_quantity_shipped self (OrderItem.quantity_shipped self + q)),
            true)).
Proof.
  intros Hk Hlot Hshort Hfits. unfold OrderItem_ship_quantity.
  destruct (Z.leb_spec q (OrderItem.quantity self - OrderItem.quantity_shipped self));
    [|lia].
  cbv zeta. simpl OrderItem.allocated_inventory. rewrite Hk.
  unfold get_inventory, Inventory_allocate_stock. run. rewrite Hlot. simpl.
  assert (Hguard : (Inventory.reserved_quantity lot >=? q)
                   && (Inventory.quantity lot >=? q) = false).
  { apply andb_false_iff. destruct Hshort as [Hs|Hs]; [left|right];
      destruct (Z.geb_spec (Inventory.reserved_quantity lot) q);
      destruct (Z.geb_spec (Inventory.quantity lot) q); try reflexivity; lia. }
  rewrite Hguard. reflexivity.
Qed.

(** Shipping 3 units from lot 1 of the ledger where it has 2 reserved. *)
Lemma ship_quantity_counts_though_lot_refuses_witness :
  OrderItem_ship_quantity Case2.order_item 3 Case.db_stale_line
  = (Case.db_stale_line,
     Returned (OrderItem.save (OrderItem.set_quantity_shipped Case2.order_item 5), true)).
Proof.
  apply (ship_quantity_counts_though_lot_refuses Case2.order_item 3 1
           (Scenario.lot 1 10 2 None 1) Case.db_stale_line).
  - reflexivity.
  - reflexivity.
  - left. simpl. lia.
  - simpl. lia.
Defined.

(** ** Shelves *)

Lemma range1_length (n : Z) : List.length (WarehouseShelf.range1 n) = Z.to_nat n.
Proof.
  unfold WarehouseShelf.range1. now rewrite length_map, length_seq.
Qed.

Lemma range1_In (n x : Z) : In x (WarehouseShelf.range1 n) <-> 1 <= x <= n.
Proof.
  unfold WarehouseShelf.range1. rewrite in_map_iff. split.
  - intros (k & <- & Hk). apply in_seq in Hk. lia.
  - intros H. exists (Z.to_nat x). split; [lia|]. apply in_seq. lia.
Qed.

Lemma flat_map_length_const {A B : Type} (f : A -> list B) (l : list A) (n : nat) :
  (forall x, List.length (f x) = n) ->
  List.length (flat_map f l) = (List.length l * n)%nat.
Proof.
  intros H. induction l as [|x l IH]; simpl; [reflexivity|].
  now rewrite length_app, H, IH.
Qed.

(** X22. [get_bin_locations] lists one bin for each level from 1 to [levels]
    and each bay from 1 to [bays], and nothing else: [levels * bays] bins in
    all, so that [total_capacity] is the number of bins times
    [max_items_per_bay]. *)
Theorem bin_locations_cover_the_shelf (self : WarehouseShelf.t) :
  0 <= WarehouseShelf.levels self ->
  0 <= WarehouseShelf.bays self ->
  Z.of_nat (List.length (WarehouseShelf.get_bin_locations self))
  = WarehouseShelf.levels self * WarehouseShelf.bays self
  /\ WarehouseShelf.total_capacity self
     = Z.of_nat (List.length (WarehouseShelf.get_bin_locations self))
       * WarehouseShelf.max_items_per_bay self
  /\ forall level bay,
       (exists b, In b (WarehouseShelf.get_bin_locations self)
                  /\ WarehouseShelf.level b = level /\ WarehouseShelf.bay b = bay)
       <-> 1 <= level <= WarehouseShelf.levels self
           /\ 1 <= bay <= WarehouseShelf.bays self.
Proof.
  intros Hl Hb.
  assert (Hlen : Z.of_nat (List.length (WarehouseShelf.get_bin_locations self))
                 = WarehouseShelf.levels self * WarehouseShelf.bays self).
  { unfold WarehouseShelf.get_bin_locations.
    rewrite (flat_map_length_const _ _ (Z.to_nat (WarehouseShelf.bays self))).
    - rewrite range1_length. lia.
    - intros x. now rewrite length_map, range1_length. }
  split; [exact Hlen|]. split.
  - unfold WarehouseShelf.total_capacity. now rewrite Hlen.
  - intros level bay. unfold WarehouseShelf.get_bin_locations. split.
    + intros (b & Hin & <- & <-). apply in_flat_map in Hin.
      destruct Hin as (l & Hl' & Hin). apply in_map_iff in Hin.
      destruct Hin as (y & <- & Hy). simpl.
      apply range1_In in Hl'. apply range1_In in Hy. tauto.
    + intros [Hlv Hby]. eexists. split.
      * apply in_flat_map. exists level. split; [now apply range1_In|].
        apply in_map_iff. exists bay. split; [reflexivity|now apply range1_In].
      * split; reflexivity.
Qed.

(** A shelf of 2 levels and 3 bays, 4 items a bay. *)
Lemma bin_locations_cover_the_shelf_witness :
  Z.of_nat (List.length
              (WarehouseShelf.get_bin_locations (WarehouseShelf.mk "A3" 2 3 4 0)))
  = 2 * 3
  /\ WarehouseShelf.total_capacity (WarehouseShelf.mk "A3" 2 3 4 0)
     = Z.of_nat (List.length
                   (WarehouseShelf.get_bin_locations (WarehouseShelf.mk "A3" 2 3 4 0)))
       * 4
  /\ forall level bay,
       (exists b, In b (WarehouseShelf.get_bin_locations (WarehouseShelf.mk "A3" 2 3 4 0))
                  /\ WarehouseShelf.level b = level /\ WarehouseShelf.bay b = bay)
       <-> 1 <= level <= 2 /\ 1 <= bay <= 3.
Proof.
  apply (bin_locations_cover_the_shelf (WarehouseShelf.mk "A3" 2 3 4 0)).
  - simpl. lia.
  - simpl. lia.
Defined.

Example bin_location_codes :
  map WarehouseShelf.code
      (WarehouseShelf.get_bin_locations (WarehouseShelf.mk "A3" 1 2 4 0))
  = ["A3-01-01"; "A3-01-02"]%string.
Proof. reflexivity. Qed.

(** ** The ledger invariant under release *)

Lemma save_keeps_lots_ok (row : Inventory.t) (db : DB) :
  lots_ok db ->
  lot_invariant (Inventory.computed_fields row) ->
  lots_ok (fst (Inventory_save row db)).
Proof.
  intros Hdb Hrow i Hin.
  destruct (Inventory_save_frame row db) as (Hi & _).
  rewrite Hi in Hin. apply upsert_rows in Hin. destruct Hin as [->|Hin]; auto.
Qed.

Lemma release_line_keeps_lots_ok (a : ReservationAllocation.t) (db : DB) :
  0 <= ReservationAllocation.quantity a ->
  lots_ok db ->
  lots_ok (fst (InventoryService.release_line a db)).
Proof.
  intros Hq Hdb. unfold InventoryService.release_line, get_inventory.
  unfold bind at 1 2. unfold read at 1.
  destruct (get_by Inventory.id (ReservationAllocation.inventory a) (inventories db))
    as [lot|] eqn:Hlot; simpl fetch; [|exact Hdb].
  unfold ret at 1. cbv beta iota zeta. unfold bind at 1.
  unfold Inventory_release_stock.
  assert (Hinv : lot_invariant lot).
  { apply Hdb. unfold get_by in Hlot. now apply find_some in Hlot. }
  destruct (Z.geb_spec (Inventory.reserved_quantity lot) (ReservationAllocation.quantity a));
    [|exact Hdb].
  unfold bind at 1.
  match goal with
  | |- context [Inventory_save ?row db] =>
      assert (Hrow : lot_invariant (Inventory.computed_fields row))
        by (destruct Hinv as (? & ? & ?); unfold lot_invariant; simpl; lia);
      pose proof (save_keeps_lots_ok row db Hdb Hrow) as Hok;
      destruct (Inventory_save row db) as [d [s|e]]
  end; exact Hok.
Qed.

Lemma release_keeps_ledger_invariant (now k : Z) (db : DB) :
  ledger_invariant db ->
  ledger_invariant (fst (InventoryService.release_stock now k db)).
Proof.
  intros [Hl Ha]. unfold InventoryService.release_stock, atomic.
  unfold bind at 1. unfold read at 1.
  destruct (InventoryService.get_reserved k db) as [r|]; [|split; assumption].
  unfold bind at 1.
  pose proof (for_each_keeps_in lots_ok InventoryService.release_line
                (InventoryService.allocations_of (StockReservation.id r) db)) as Hloop.
  specialize (Hloop (fun a Hin d Hd =>
                       release_line_keeps_lots_ok a d
                         (Ha a (proj1 (proj1 (filter_In _ _ _) Hin))) Hd) db Hl).
  destruct (release_lines_frame
              (InventoryService.allocations_of (StockReservation.id r) db) db)
    as [_ Hal].
  destruct (for_each _ InventoryService.release_line db) as [d [[]|e]];
    simpl in *; [|split; assumption].
  split; [exact Hloop|]. unfold with_reservations. simpl. now rewrite Hal.
Qed.

(** A pass of the sweeper keeps the ledger invariant, whether it commits
    or is abandoned. *)
Lemma sweep_keeps_ledger_invariant (sender_name : string) (now : Z) (db : DB) :
  ledger_invariant db ->
  ledger_invariant (fst (cleanup_expired_reservations sender_name now db)).
Proof.
  intros Hdb. unfold cleanup_expired_reservations, cleanup_with.
  destruct (negb (sender_name =? "inventory")%string); [exact Hdb|].
  unfold try_except, bind at 1, read at 1.
  destruct (0 <? List.length (filter (expired_reserved now) (reservations db)))%nat;
    [|exact Hdb].
  unfold atomic, bind at 1.
  pose proof (for_each_keeps_in ledger_invariant
                (fun reservation =>
                   InventoryService.release_stock now
                     (StockReservation.id reservation) ;;; ret tt)
                (filter (expired_reserved now) (reservations db))) as Hloop.
  specialize (Hloop (fun x _ d Hd =>
                       eq_ind_r ledger_invariant
                         (release_keeps_ledger_invariant now (StockReservation.id x) d Hd)
                         (step_then_ret _ d)) db Hdb).
  destruct (for_each _ _ db) as [d [[]|e]]; simpl in *; [exact Hloop|exact Hdb].
Qed.

(** X23. Releasing keeps the ledger invariant. If every lot satisfies the
    lot invariant ([0 <= reserved <= on hand], [available = on hand -
    reserved]) and no allocation line has a negative quantity, the same
    holds after [release_stock] and after a pass of the sweeper, whatever
    their arguments and however they end. *)
Theorem releases_keep_ledger_invariant
        (sender_name : string) (now k : Z) (db : DB) :
  ledger_invariant db ->
  ledger_invariant (fst (InventoryService.release_stock now k db))
  /\ ledger_invariant (fst (cleanup_expired_reservations sender_name now db)).
Proof.
  intros H. split.
  - now apply release_keeps_ledger_invariant.
  - now apply sweep_keeps_ledger_invariant.
Qed.

(** A valid ledger with two expired reservations: the release of
    reservation 51 and a pass of the sweeper. *)
Lemma releases_keep_ledger_invariant_witness :
  ledger_invariant Scenario.db_two_expired
  /\ ledger_invariant (fst (InventoryService.release_stock 2000 51 Scenario.db_two_expired))
  /\ ledger_invariant
       (fst (cleanup_expired_reservations "inventory" 2000 Scenario.db_two_expired)).
Proof.
  assert (H : ledger_invariant Scenario.db_two_expired).
  { split; simpl; intros x Hx; repeat destruct Hx as [<-|Hx]; try contradiction;
      unfold lot_invariant; simpl; lia. }
  split; [exact H|].
  exact (releases_keep_ledger_invariant "inventory" 2000 51 Scenario.db_two_expired H).
Defined.

(** ** Warehouse tasks, equipment and safety checks *)

Lemma scan_run_app (self : TaskItem.t) (answers : list bool)
      (scans : list (Z * string * Z)) :
  fold_left
    (fun (acc : TaskItem.t * list bool) (scan : Z * string * Z) =>
       let '(now, barcode, staff) := scan in
       let '(self, (ok, _)) := TaskItem.scan_item now (fst acc) barcode staff in
       (self, snd acc ++ [ok]))
    scans (self, answers)
  = (fst (scan_run self scans), answers ++ snd (scan_run self scans)).
Proof.
  unfold scan_run. revert self answers.
  induction scans as [|[[now barcode] staff] scans IH]; intros self answers.
  - simpl. now rewrite app_nil_r.
  - simpl. rewrite (IH _ (answers ++ [true])), (IH _ [true]). simpl.
    now rewrite <- app_assoc.
Qed.

Lemma scan_run_cons (self : TaskItem.t) (now : Z) (barcode : string) (staff : Z)
      (scans : list (Z * string * Z)) :
  scan_run self ((now, barcode, staff) :: scans)
  = (fst (scan_run (fst (TaskItem.scan_item now self barcode staff)) scans),
     true :: snd (scan_run (fst (TaskItem.scan_item now self barcode staff)) scans)).
Proof.
  unfold scan_run at 1. simpl. now rewrite scan_run_app.
Qed.

(** X24. Scanning is a counter that never refuses. Whatever the barcodes,
    every [scan_item] of a run answers [True] and none records an error;
    the run adds its length to [quantity_completed], also beyond the
    item's [quantity]; and the item is [completed] after the run exactly
    when the run is not empty and reaches the quantity, its status being
    unchanged otherwise. *)
Theorem scanning_never_refuses (self : TaskItem.t) (scans : list (Z * string * Z)) :
  snd (scan_run self scans) = repeat true (List.length scans)
  /\ TaskItem.quantity_completed (fst (scan_run self scans))
     = TaskItem.quantity_completed self + Z.of_nat (List.length scans)
  /\ TaskItem.quantity (fst (scan_run self scans)) = TaskItem.quantity self
  /\ TaskItem.has_error (fst (scan_run self scans)) = TaskItem.has_error self
  /\ TaskItem.status (fst (scan_run self scans))
     = if (0 <? Z.of_nat (List.length scans))
          && (TaskItem.quantity self
              <=? TaskItem.quantity_completed self + Z.of_nat (List.length scans))
       then TaskItem.completed else TaskItem.status self.
Proof.
  revert self. induction scans as [|[[now barcode] staff] scans IH]; intros self.
  - simpl. rewrite Z.add_0_r. repeat split; reflexivity.
  - rewrite scan_run_cons.
    set (s1 := fst (TaskItem.scan_item now self barcode staff)).
    destruct (IH s1) as (Ha & Hq & Hn & He & Hs).
    cbn [fst snd]. rewrite Ha, Hq, Hn, He, Hs. subst s1. cbn [List.length repeat].
    unfold TaskItem.scan_item, TaskItem.validate_barcode. cbn [fst TaskItem.quantity
      TaskItem.quantity_completed TaskItem.has_error TaskItem.status].
    split; [reflexivity|]. split; [lia|]. split; [reflexivity|].
    split; [reflexivity|].
    replace (0 <? Z.of_nat (S (List.length scans))) with true
      by (symmetry; apply Z.ltb_lt; lia).
    cbn [andb].
    destruct (Z.ltb_spec 0 (Z.of_nat (List.length scans))) as [Hpos|Hzero]; cbn [andb].
    + destruct (Z.leb_spec (TaskItem.quantity self)
                  (TaskItem.quantity_completed self + 1 + Z.of_nat (List.length scans)));
      destruct (Z.leb_spec (TaskItem.quantity self)
                  (TaskItem.quantity_completed self + Z.of_nat (S (List.length scans))));
      try lia; try reflexivity.
      destruct (Z.geb_spec (TaskItem.quantity_completed self + 1) (TaskItem.quantity self));
        [lia|reflexivity].
    + assert (E : Z.of_nat (List.length scans) = 0) by lia.
      replace (Z.of_nat (S (List.length scans))) with 1 by lia.
      destruct (Z.geb_spec (TaskItem.quantity_completed self + 1) (TaskItem.quantity self));
      destruct (Z.leb_spec (TaskItem.quantity self) (TaskItem.quantity_completed self + 1));
      try lia; reflexivity.
Qed.

(** X25. A piece of equipment has one user at a time, and returning it
    always frees it. After an assignment that succeeded, any further
    assignment is refused and leaves the first user in place; after
    [return_equipment] the next assignment succeeds -- also for equipment
    that was under maintenance or out of service, which [return_equipment]
    puts back to [available]. *)
Theorem equipment_has_one_user (self other : WarehouseEquipment.t) (a b : Z) :
  snd (WarehouseEquipment.assign_to_staff self a) = true ->
  let e := fst (WarehouseEquipment.assign_to_staff self a) in
  WarehouseEquipment.current_user e = Some a
  /\ WarehouseEquipment.assign_to_staff e b = (e, false)
  /\ WarehouseEquipment.current_user
       (fst (WarehouseEquipment.assign_to_staff
               (WarehouseEquipment.return_equipment e) b)) = Some b
  /\ WarehouseEquipment.assign_to_staff (WarehouseEquipment.return_equipment other) b
     = (WarehouseEquipment.mk (WarehouseEquipment.id other) WarehouseEquipment.in_use
          (WarehouseEquipment.next_maintenance other) (Some b), true).
Proof.
  unfold WarehouseEquipment.assign_to_staff.
  destruct (WarehouseEquipment.status_eqb (WarehouseEquipment.status self)
              WarehouseEquipment.available); [|discriminate].
  intros _. simpl. repeat split; reflexivity.
Qed.

(** A forklift handed to staff 7, asked for by staff 8; a scanner under
    maintenance. *)
Lemma equipment_has_one_user_witness :
  let e := fst (WarehouseEquipment.assign_to_staff Case3.forklift 7) in
  WarehouseEquipment.current_user e = Some 7
  /\ WarehouseEquipment.assign_to_staff e 8 = (e, false)
  /\ WarehouseEquipment.current_user
       (fst (WarehouseEquipment.assign_to_staff
               (WarehouseEquipment.return_equipment e) 8)) = Some 8
  /\ WarehouseEquipment.assign_to_staff
       (WarehouseEquipment.return_equipment Case3.scanner) 8
     = (WarehouseEquipment.mk 2 WarehouseEquipment.in_use None (Some 8), true).
Proof.
  apply (equipment_has_one_user Case3.forklift Case3.scanner 7 8). reflexivity.
Defined.

(** The loop of [process_results] counts every entry once and records one
    issue for each entry that did not pass. *)
Lemma tally_spec (results : list WarehouseSafetyCheck.result) (p f : Z)
      (issues : list WarehouseSafetyCheck.issue) :
  let '(p', f', issues') := WarehouseSafetyCheck.tally results p f issues in
  p' + f' = p + f + Z.of_nat (List.length results)
  /\ f' - f = Z.of_nat (List.length issues') - Z.of_nat (List.length issues)
  /\ f <= f'
  /\ (f' = f <-> forallb WarehouseSafetyCheck.passed results = true)
  /\ map WarehouseSafetyCheck.issue_item issues'
     = map WarehouseSafetyCheck.issue_item issues
       ++ map WarehouseSafetyCheck.name
            (filter (fun item => negb (WarehouseSafetyCheck.passed item)) results).
Proof.
  revert p f issues. induction results as [|item results IH]; intros p f issues.
  - simpl. rewrite app_nil_r. repeat split; lia.
  - cbn [WarehouseSafetyCheck.tally forallb filter List.length].
    destruct (WarehouseSafetyCheck.passed item); cbn [negb andb].
    + specialize (IH (p + 1) f issues).
      destruct (WarehouseSafetyCheck.tally results (p + 1) f issues) as [[p' f'] issues'].
      destruct IH as (H1 & H2 & H3 & H4 & H5).
      split; [lia|]. split; [lia|]. split; [lia|]. split; assumption.
    + match goal with
      | |- context [WarehouseSafetyCheck.tally results p (f + 1) ?acc] =>
          specialize (IH p (f + 1) acc);
          destruct (WarehouseSafetyCheck.tally results p (f + 1) acc) as [[p' f'] issues']
      end.
      destruct IH as (H1 & H2 & H3 & H4 & H5).
      rewrite length_app in H2. simpl in H2.
      split; [lia|]. split; [lia|]. split; [lia|].
      split; [split; [lia|discriminate]|].
      rewrite H5, map_app. simpl. now rewrite <- app_assoc.
Qed.

(** X26. A safety check counts every entry of its results once. After
    [conduct_check], whatever the check held before: [passed_items +
    failed_items = total_items], which is the number of entries;
    [issues_found] names exactly the entries that did not pass, in order;
    and the status is [completed] when every entry passed (also for an
    empty list of results) and [failed] otherwise, never [in_progress]. *)
Theorem safety_check_counts_every_entry
        (today : Z) (self : WarehouseSafetyCheck.t) (staff : Z)
        (results : list WarehouseSafetyCheck.result) :
  let c := WarehouseSafetyCheck.conduct_check today self staff results in
  WarehouseSafetyCheck.passed_items c + WarehouseSafetyCheck.failed_items c
  = WarehouseSafetyCheck.total_items c
  /\ WarehouseSafetyCheck.total_items c = Z.of_nat (List.length results)
  /\ WarehouseSafetyCheck.failed_items c
     = Z.of_nat (List.length (WarehouseSafetyCheck.issues_found c))
  /\ map WarehouseSafetyCheck.issue_item (WarehouseSafetyCheck.issues_found c)
     = map WarehouseSafetyCheck.name
         (filter (fun item => negb (WarehouseSafetyCheck.passed item)) results)
  /\ WarehouseSafetyCheck.status c
     = if forallb WarehouseSafetyCheck.passed results
       then WarehouseSafetyCheck.completed else WarehouseSafetyCheck.failed.
Proof.
  unfold WarehouseSafetyCheck.conduct_check, WarehouseSafetyCheck.process_results.
  pose proof (tally_spec results 0 0 []) as H.
  destruct (WarehouseSafetyCheck.tally results 0 0 []) as [[p f] issues].
  destruct H as (H1 & H2 & H3 & H4 & H5). simpl in *.
  split; [lia|]. split; [reflexivity|]. split; [lia|]. split; [exact H5|].
  destruct (forallb WarehouseSafetyCheck.passed results).
  - replace f with 0 by (symmetry; now apply H4). reflexivity.
  - destruct (Z.eqb_spec f 0) as [E|E]; [|reflexivity].
    apply H4 in E. discriminate.
Qed.
